(** * commensal-automator: recording coordination, retries and clean-up

    A shallow embedding of the decision logic of

      - [automator/util.py]          ([retry], [dec_degrees], [ra_degrees]),
      - [coordinator/rec_util.py]    ([record], [get_primary_target],
                                      [get_cals], [get_pktstart], [get_pkt_idx]
                                      and their helpers),
      - [coordinator/coordinator.py] (the message loop of [Coordinator.start]
                                      and [processing_return]),
      - [coordinator_states/proc.py] ([process], [rm_datadir]),

    followed by the properties established about them.

    Conventions.  A Python call either returns or raises: [outcome].
    Code that reads or writes Redis, sleeps, starts timers or touches the
    file system threads a state and appends to a trace of effects.  Calls
    to the logger are not part of the model.  Python [str] values are
    modelled as byte strings. *)

From Stdlib Require Import ZArith QArith Qabs Qround Lia Lqa String Ascii List.
From Stdlib Require Import DecimalString DecimalZ.
From stdpp Require Import base strings gmap list.

Local Open Scope string_scope.
Local Open Scope Z_scope.

(** ** Python outcomes *)

(** The exception classes the modelled code can meet.  [NonException]
    stands for the classes that derive from [BaseException] only
    ([KeyboardInterrupt], [SystemExit], [GeneratorExit]). *)
Inductive exn : Type :=
| TypeError | ValueError | AttributeError | IndexError | KeyError
| NameError | UnboundLocalError | OverflowError
| OtherException (name : string)
| NonException (name : string).

(** [isinstance(e, Exception)]. *)
Definition is_Exception (e : exn) : bool :=
  match e with NonException _ => false | _ => true end.

Inductive outcome (A : Type) : Type :=
| Returned (a : A)
| Raised (e : exn).
Arguments Returned {A} a.
Arguments Raised {A} e.

Module Out.
Definition bind {A B : Type} (o : outcome A) (k : A -> outcome B) : outcome B :=
  match o with
  | Returned a => k a
  | Raised e => Raised e
  end.

(** An [option] read as a partial Python operation raising [e]. *)
Definition of_option {A : Type} (e : exn) (o : option A) : outcome A :=
  match o with
  | Some a => Returned a
  | None => Raised e
  end.
End Out.

#[global] Instance outcome_ret : MRet outcome := fun A a => Returned a.
#[global] Instance outcome_bind : MBind outcome := fun A B k o => Out.bind o k.

(** ** Python string operations *)

Module PyStr.

(** Characters [str.strip()] removes, within the ASCII range. *)
Definition is_space (a : ascii) : bool :=
  let n := nat_of_ascii a in
  (((9 <=? n) && (n <=? 13)) || ((28 <=? n) && (n <=? 32)))%nat.

Fixpoint mem (a : ascii) (cs : string) : bool :=
  match cs with
  | EmptyString => false
  | String c cs' => Ascii.eqb a c || mem a cs'
  end.

Fixpoint rev_onto (s acc : string) : string :=
  match s with
  | EmptyString => acc
  | String a s' => rev_onto s' (String a acc)
  end.

Definition rev (s : string) : string := rev_onto s EmptyString.

Fixpoint lstrip_by (p : ascii -> bool) (s : string) : string :=
  match s with
  | EmptyString => EmptyString
  | String a s' => if p a then lstrip_by p s' else s
  end.

Definition strip_by (p : ascii -> bool) (s : string) : string :=
  rev (lstrip_by p (rev (lstrip_by p s))).

(** [s.strip()] *)
Definition strip (s : string) : string := strip_by is_space s.

(** [s.strip(chars)] *)
Definition strip_chars (chars s : string) : string :=
  strip_by (fun a => mem a chars) s.

(** [sub in s] *)
Fixpoint contains (sub s : string) : bool :=
  String.prefix sub s ||
  match s with
  | EmptyString => false
  | String _ s' => contains sub s'
  end.

(** The loop of [s.split(sep)] for a non-empty [sep]: [cur] is the
    field being read, reversed; [skip] counts the characters of a
    separator still to be passed over. *)
Fixpoint split_go (sep : string) (skip : nat) (cur s : string) : list string :=
  match s with
  | EmptyString => [rev cur]
  | String a s' =>
      match skip with
      | S k => split_go sep k cur s'
      | O =>
          if String.prefix sep s
          then rev cur :: split_go sep (String.length sep - 1) EmptyString s'
          else split_go sep 0 (String a cur) s'
      end
  end.

(** [s.split(sep)]; an empty separator raises [ValueError]. *)
Definition split (sep s : string) : outcome (list string) :=
  match sep with
  | EmptyString => Raised ValueError
  | _ => Returned (split_go sep 0 EmptyString s)
  end.

Fixpoint map (f : ascii -> ascii) (s : string) : string :=
  match s with
  | EmptyString => EmptyString
  | String a s' => String (f a) (map f s')
  end.

(** A [str] is held as the bytes of its UTF-8 text, and Python counts
    and slices characters: a character is a byte that is no
    continuation byte (10xxxxxx) with the continuation bytes after
    it. *)
Definition is_continuation (a : ascii) : bool :=
  let n := nat_of_ascii a in ((128 <=? n) && (n <=? 191))%nat.

(** [len(s)] *)
Fixpoint char_length (s : string) : nat :=
  match s with
  | EmptyString => O
  | String a s' =>
      if is_continuation a then char_length s' else S (char_length s')
  end.

(** The first [k] characters of [s]. *)
Fixpoint take_chars (k : nat) (s : string) : string :=
  match s with
  | EmptyString => EmptyString
  | String a s' =>
      if is_continuation a then String a (take_chars k s')
      else match k with
           | O => EmptyString
           | S k' => String a (take_chars k' s')
           end
  end.

(** [s[0:stop]], with Python's reading of a negative [stop]. *)
Definition slice_to (stop : Z) (s : string) : string :=
  let n := Z.of_nat (char_length s) in
  let stop' := if stop <? 0 then Z.max 0 (n + stop) else Z.min stop n in
  take_chars (Z.to_nat stop') s.

(** [seq[i]] for [i >= 0]. *)
Definition index {A : Type} (l : list A) (i : nat) : outcome A :=
  Out.of_option IndexError (l !! i).

Definition digit_val (a : ascii) : option Z :=
  let n := nat_of_ascii a in
  if ((48 <=? n) && (n <=? 57))%nat then Some (Z.of_nat n - 48) else None.

(** Digits with single underscores between them, as [int()] reads. *)
Fixpoint digits_go (acc : Z) (after_digit : bool) (s : string) : option Z :=
  match s with
  | EmptyString => if after_digit then Some acc else None
  | String a s' =>
      match digit_val a with
      | Some d => digits_go (10 * acc + d) true s'
      | None =>
          if Ascii.eqb a "_"%char && after_digit then digits_go acc false s'
          else None
      end
  end.

(** [int(s)] for a [str] in base 10. *)
Definition to_int (s : string) : outcome Z :=
  Out.of_option ValueError
    match strip s with
    | String "-"%char t => Z.opp <$> digits_go 0 false t
    | String "+"%char t => digits_go 0 false t
    | t => digits_go 0 false t
    end.

(** [bool(s)] *)
Definition truthy (s : string) : bool :=
  match s with EmptyString => false | _ => true end.

End PyStr.

(** ** Python floats *)

(** The interface the code needs from IEEE doubles.  [F_of_Q q] is the
    double nearest to [q] (a float literal, or the conversion of an
    [int]); [F2Q] gives the value of a finite double.  [float_of_str] is
    [float(s)] with [None] where it raises [ValueError]; [str_of_float]
    is [repr(x)], the text redis-py stores for a float. *)
Class PyFloat : Type := {
  float : Type;
  F_of_Q : Q -> float;
  F2Q : float -> Q;
  fadd : float -> float -> float;
  fsub : float -> float -> float;
  fmul : float -> float -> float;
  fdiv : float -> float -> float;
  flt : float -> float -> bool;
  float_of_str : string -> option float;
  str_of_float : float -> string
}.

Definition F_of_Z `{PyFloat} (z : Z) : float := F_of_Q (inject_Z z).

(** * automator/util.py *)

Module Util.

(** ** [retry] *)
Section Retry.
Context {S D V : Type}.
(** [bool(output)] *)
Variable truthy : V -> bool.
(** What [time.sleep(delay)] does to the state.  It sits inside the
    [try], so a [ValueError] for a negative delay is caught and the
    loop continues as after a sleep. *)
Variable sleep : D -> S -> S.

(** The body of [for _ in range(retries)], [k] iterations left. *)
Fixpoint retry_loop (k : nat) (delay : D) (function : S -> outcome V * S)
    (s : S) : outcome (option V) * S :=
  match k with
  | O => (Returned None, s)
  | Datatypes.S k' =>
      match function s with
      | (Returned output, s1) =>
          if truthy output then (Returned (Some output), s1)
          else retry_loop k' delay function (sleep delay s1)
      | (Raised e, s1) =>
          if is_Exception e then retry_loop k' delay function s1
          else (Raised e, s1)
      end
  end.

Definition retry (retries : Z) (delay : D) (function : S -> outcome V * S)
    (s : S) : outcome (option V) * S :=
  retry_loop (Z.to_nat retries) delay function s.

(** [function] with a call counter next to its state. *)
Definition counted (function : S -> outcome V * S)
    (sc : S * nat) : outcome V * (S * nat) :=
  let '(o, s1) := function (fst sc) in (o, (s1, Datatypes.S (snd sc))).

(** The sleep of the counting state leaves the counter alone. *)
Definition sleep_counted (d : D) (sc : S * nat) : S * nat :=
  (sleep d (fst sc), snd sc).

(** One failed attempt from state [s] to state [s']: a falsy result,
    after which [retry] sleeps, or an exception that the handler
    catches. *)
Definition attempt_fails (delay : D) (function : S -> outcome V * S)
    (s s' : S) : Prop :=
  (exists v s1, function s = (Returned v, s1) /\ truthy v = false /\
                s' = sleep delay s1) \/
  (exists e, function s = (Raised e, s') /\ is_Exception e = true).
End Retry.

(** ** [dec_degrees], [ra_degrees] *)
Section Degrees.
Context `{PyFloat}.

Definition first_char_is (c : ascii) (s : string) : bool :=
  match s with
  | String a _ => Ascii.eqb a c
  | EmptyString => false
  end.

Definition to_float (s : string) : outcome float :=
  Out.of_option ValueError (float_of_str s).

Definition dec_degrees (dec_s : string) : outcome float :=
  dec ← PyStr.split ":" dec_s;
  d0 ← PyStr.index dec 0; d ← PyStr.to_int d0;
  m1 ← PyStr.index dec 1; m ← PyStr.to_int m1;
  s2 ← PyStr.index dec 2; s ← to_float s2;
  if first_char_is "-" d0
  then mret (fsub (fsub (F_of_Z d) (fdiv (F_of_Z m) (F_of_Z 60)))
                  (fdiv s (F_of_Z 3600)))
  else mret (fadd (fadd (F_of_Z d) (fdiv (F_of_Z m) (F_of_Z 60)))
                  (fdiv s (F_of_Z 3600))).

Definition ra_degrees (ra_s : string) : outcome float :=
  ra ← PyStr.split ":" ra_s;
  h0 ← PyStr.index ra 0; h ← PyStr.to_int h0;
  m1 ← PyStr.index ra 1; m ← PyStr.to_int m1;
  s2 ← PyStr.index ra 2; s ← to_float s2;
  mret (fadd (fadd (F_of_Z (h * 15)) (fmul (F_of_Z m) (F_of_Q (1 # 4))))
             (fdiv (fmul s (F_of_Z 15)) (F_of_Z 3600))).
End Degrees.

End Util.

(** * coordinator/rec_util.py *)

Module RecUtil.

Definition HPGDOMAIN : string := "bluse".
Definition PKTIDX_MARGIN : Z := 2048.
Definition TARGETS_CHANNEL : string := "target-selector:new-pointing".
Definition DEFAULT_DWELL : Z := 290.

(** [str(n)] for an [int]. *)
Definition str_of_int (n : Z) : string := NilEmpty.string_of_int (Z.to_int n).

(** ** The Redis server, the telescope state and the world *)

(** String keys ([get]/[set]) and hash keys ([hgetall]) of the server
    the client [r] talks to ([decode_responses=True]: values are
    [str]). *)
Record redis : Type := {
  kv : gmap string string;
  hashes : gmap string (gmap string string)
}.

Definition set_kv (k v : string) (r : redis) : redis :=
  {| kv := <[k := v]> (kv r); hashes := hashes r |}.

Section WithFloat.
Context `{PyFloat}.

(** What [coordinator.telstate_interface.TelstateInterface] answers
    at present: building the interface for an endpoint, the phase-up
    time, and fetching the solutions, which saves them to Redis. *)
Record telstate : Type := {
  tel_init : string -> outcome unit;
  tel_phaseup : outcome float;
  tel_query : string -> redis -> outcome unit * redis
}.

(** Values handed to the Hashpipe-Redis gateway. *)
Inductive value : Type :=
| VStr (s : string)
| VInt (z : Z)
| VFloat (x : float)
| VNone.

Inductive timer_action : Type :=
| RunGetCals (array : string)
| RunTimeout (array channel : string).

(** Effects, in the order they happen. *)
Inductive event : Type :=
| SetGroupKey (array key : string) (v : value)
| GatewayMsg (group key : string) (v : value) (write : bool)
| Alert (msg name : string)
| Publish (channel msg : string)
| Lpush (key v : string)
| TimerStart (seconds : Z) (action : timer_action)
| Sleep (seconds : Z)
| Annotate (tag text : string).

(** [now] is [datetime.utcnow()] in microseconds since the epoch. *)
Record world : Type := {
  db : redis;
  tel : telstate;
  now : Z;
  trace : list event
}.

Definition M (A : Type) : Type := world -> outcome A * world.

Definition ret {A : Type} (a : A) : M A := fun w => (Returned a, w).
Definition bind {A B : Type} (c : M A) (k : A -> M B) : M B :=
  fun w =>
    match c w with
    | (Returned a, w1) => k a w1
    | (Raised e, w1) => (Raised e, w1)
    end.
Definition raise {A : Type} (e : exn) : M A := fun w => (Raised e, w).
Definition lift {A : Type} (o : outcome A) : M A := fun w => (o, w).
Definition emit (e : event) : M unit :=
  fun w => (Returned tt,
            {| db := db w; tel := tel w; now := now w;
               trace := trace w ++ [e] |}).
(** [r.get(key)] *)
Definition r_get (key : string) : M (option string) :=
  fun w => (Returned (kv (db w) !! key), w).
(** [r.set(key, value)] *)
Definition r_set (key v : string) : M unit :=
  fun w => (Returned tt,
            {| db := set_kv key v (db w); tel := tel w; now := now w;
               trace := trace w |}).
Definition with_db (r : redis) (w : world) : world :=
  {| db := r; tel := tel w; now := now w; trace := trace w |}.

#[global] Instance M_ret : MRet M := @ret.
#[global] Instance M_bind : MBind M := fun A B k c => bind c k.

(** [time.sleep(d)]: a negative [d] raises [ValueError] at once. *)
Definition sleep (d : Z) (w : world) : world :=
  if d <? 0 then w
  else {| db := db w; tel := tel w; now := now w + d * 1000000;
          trace := trace w ++ [Sleep d] |}.

(** [s[-1]] *)
Definition last_char (s : string) : outcome string :=
  match PyStr.rev s with
  | String a _ => Returned (String a EmptyString)
  | EmptyString => Raised IndexError
  end.

(** [f"{x}"] for a value that is a [str] or [None]. *)
Definition fmt_opt (o : option string) : string := default "None" o.

Definition get_db : M redis := fun w => (Returned (db w), w).
(** [datetime.utcnow()] *)
Definition utcnow : M Z := fun w => (Returned (now w), w).

(** [try: c except Exception: ...], [None] standing for the handler. *)
Definition try_except {A : Type} (c : M A) : M (option A) :=
  fun w =>
    match c w with
    | (Returned a, w1) => (Returned (Some a), w1)
    | (Raised e, w1) =>
        if is_Exception e then (Returned None, w1) else (Raised e, w1)
    end.

(** [float(x)] for [x] a [str] or [None]. *)
Definition float_arg (x : option string) : outcome float :=
  s ← Out.of_option TypeError x; Util.to_float s.

(** Code of this repository and of the Python library that
    [rec_util] calls and that is not part of the sources at hand:
    [redis_util.pktidx_to_timestamp] and [redis_util.sb_id], taken as
    total; [datetime.utcfromtimestamp], in microseconds since the
    epoch; [strftime] with ["%Y%m%dT%H%M%SZ"]; and
    ['{0:.17g}'.format]. *)
Class Collaborators : Type := {
  pktidx_to_timestamp : redis -> Z -> string -> float;
  utcfromtimestamp : float -> outcome Z;
  strftime : Z -> string;
  sb_id : redis -> string -> string;
  format_17g : float -> string
}.
Context `{Collaborators}.

(** ** [get_pkt_idx], [get_pktstart] *)

Definition get_pkt_idx (r : redis) (instance_key : string) : option string :=
  let daq_status := default ∅ (hashes r !! instance_key) in
  if (0 <? size daq_status)%nat then
    match daq_status !! "NETSTAT" with
    | Some netstat =>
        if String.eqb netstat "idle" then None else daq_status !! "PKTIDX"
    | None => None
    end
  else None.

Definition status_key (instance : string) : string :=
  HPGDOMAIN +:+ "://" +:+ instance +:+ "/status".

(** The first loop of [get_pktstart]: the list [pkt_indices]. *)
Definition collect_pkt_indices (r : redis) (instances : list string)
    : list string :=
  omap (fun instance =>
          match get_pkt_idx r (status_key instance) with
          | Some pkt_index =>
              if PyStr.truthy pkt_index then Some pkt_index else None
          | None => None
          end) instances.

Definition int64_min : Z := - 2 ^ 63.
Definition int64_max : Z := 2 ^ 63 - 1.
Definition in_int64 (z : Z) : bool := (int64_min <=? z) && (z <=? int64_max).
Definition wrap64 (z : Z) : Z := (z + 2 ^ 63) mod 2 ^ 64 - 2 ^ 63.

(** One element of [np.asarray(..., dtype=np.int64)]: the [str] goes
    through [int()], and must fit. *)
Definition to_int64 (s : string) : outcome Z :=
  z ← PyStr.to_int s;
  if in_int64 z then mret z else Raised OverflowError.

Fixpoint asarray_int64 (l : list string) : outcome (list Z) :=
  match l with
  | [] => mret []
  | s :: l' => z ← to_int64 s; zs ← asarray_int64 l'; mret (z :: zs)
  end.

Definition np_max (a : list Z) : outcome Z :=
  match a with
  | [] => Raised ValueError
  | z :: a' => Returned (fold_left Z.max a' z)
  end.

(** [np.int64 + int]: the Python [int] must fit in 64 bits and the
    sum wraps around. *)
Definition int64_add (x margin : Z) : outcome Z :=
  if in_int64 margin then Returned (wrap64 (x + margin))
  else Raised OverflowError.

Record pktstart_data : Type := {
  pktstart : Z;
  pktstart_str : string;
  pktstart_ts : float
}.

(** [timedelta(minutes=2)], in microseconds. *)
Definition two_minutes : Z := 120000000.

(** The three timestamps that are computed only to be logged (of the
    maximum, the median and the minimum) are left out. *)
Definition get_pktstart (instances : list string) (margin : Z)
    (array : string) : M (option pktstart_data) :=
  r ← get_db;
  let pkt_indices := collect_pkt_indices r instances in
  if (0 <? length pkt_indices)%nat then
    pkt_indices ← lift (asarray_int64 pkt_indices);
    hi ← lift (np_max pkt_indices);
    pktstart ← lift (int64_add hi margin);
    let pktstart_timestamp := pktidx_to_timestamp r pktstart array in
    pktstart_dt ← lift (utcfromtimestamp pktstart_timestamp);
    let pktstart_str := strftime pktstart_dt in
    t ← utcnow;
    if Z.abs (pktstart_dt - t) >? two_minutes then
      _ ← emit (Alert (":warning: `" +:+ array +:+ "` bad pktstart")
                      "coordinator");
      mret None
    else
      mret (Some {| pktstart := pktstart;
                    pktstart_str := pktstart_str;
                    pktstart_ts := pktstart_timestamp |})
  else mret None.

(** ** [get_primary_target] *)

Record target_data : Type := {
  target : string;
  ra : string;
  dec : string
}.

Definition punctuation : string :=
  String "!" (String (ascii_of_nat 34) "#$%&'()*,./:;<=>?@[\]^_`{|}~").

(** [s.translate(str.maketrans(punctuation, '_'*30))] *)
Definition translate (s : string) : string :=
  PyStr.map (fun a => if PyStr.mem a punctuation then "_"%char else a) s.

Definition get_primary_target (array : string) (length : Z)
    (delimiter : string) : M (option target_data) :=
  target_val ← r_get (array +:+ ":target");
  ts ← r_get (array +:+ ":last-target");
  target_ts ← lift (float_arg ts);
  te ← r_get (array +:+ ":last-track-end");
  last_track_end ← lift (float_arg te);
  if flt target_ts (fsub last_track_end (F_of_Z 5)) then mret None
  else
    target_val ← lift (Out.of_option AttributeError target_val);
    let target := PyStr.strip_chars "'" target_val in
    if PyStr.contains "radec" target then
      target ← lift (PyStr.split "," target);
      if (List.length target <? 4)%nat then
        t1 ← lift (PyStr.index target 1);
        t2 ← lift (PyStr.index target 2);
        mret (Some {| target := "NOT_PROVIDED";
                      ra := PyStr.strip t1; dec := PyStr.strip t2 |})
      else
        t0 ← lift (PyStr.index target 0);
        names ← lift (PyStr.split delimiter t0);
        target_name ← lift (PyStr.index names 0);
        let target_name := PyStr.strip target_name in
        let target_name := PyStr.strip_chars "," target_name in
        let target_name := translate target_name in
        let target_name := PyStr.slice_to length target_name in
        t2 ← lift (PyStr.index target 2);
        t3 ← lift (PyStr.index target 3);
        mret (Some {| target := target_name;
                      ra := PyStr.strip t2; dec := PyStr.strip t3 |})
    else mret None.

(** ** [get_cals] *)

(** [if not x: 0 else float(x)] *)
Definition ts_or_zero (x : option string) : outcome float :=
  match x with
  | Some s => if PyStr.truthy s then Util.to_float s else Returned (F_of_Z 0)
  | None => Returned (F_of_Z 0)
  end.

(** The endpoint arrives as ["('10.98.2.128', 31029)"]. *)
Definition parse_endpoint (endpoint_val : option string) : outcome string :=
  v ← Out.of_option AttributeError endpoint_val;
  components ← PyStr.split "," (PyStr.strip_chars "()" v);
  c0 ← PyStr.index components 0;
  let ip := PyStr.strip_chars "'" c0 in
  c1 ← PyStr.index components 1;
  let port := PyStr.strip c1 in
  mret (ip +:+ ":" +:+ port).

Definition new_telstate (endpoint : string) : M unit :=
  fun w => (tel_init (tel w) endpoint, w).
Definition get_phaseup_time : M float :=
  fun w => (tel_phaseup (tel w), w).
Definition query_telstate (array : string) : M unit :=
  fun w => let '(o, r) := tel_query (tel w) array (db w) in (o, with_db r w).

Definition get_cals (array : string) : M (option string) :=
  endpoint_key ← r_get (array +:+ ":telstate_sensor");
  (* redis-py refuses a key that is None *)
  endpoint_key ← lift (Out.of_option (OtherException "DataError") endpoint_key);
  endpoint_val ← r_get endpoint_key;
  match parse_endpoint endpoint_val with
  | Raised _ => mret None
  | Returned telstate_endpoint =>
      TelInt ← try_except (new_telstate telstate_endpoint);
      match TelInt with
      | None => mret None
      | Some _ =>
          last_config_ts ← r_get (array +:+ ":last-config");
          last_config_ts ← lift (ts_or_zero last_config_ts);
          current_cal_ts ← get_phaseup_time;
          if flt current_cal_ts last_config_ts then mret None
          else
            last_cal_ts ← r_get (array +:+ ":last-cal");
            last_cal_ts ← lift (ts_or_zero last_cal_ts);
            if flt last_cal_ts current_cal_ts then
              _ ← query_telstate array;
              _ ← r_set (array +:+ ":last-cal") (str_of_float current_cal_ts);
              mret (Some "success")
            else mret None
      end
  end.

(** ** Sensors *)

Definition obs_band (array : string) : M (option string) :=
  n ← lift (last_char array);
  r_get ("subarray_" +:+ n +:+ "_band").

(** Everything [centre_freq] can raise is caught by its handler. *)
Definition centre_freq (array : string) : M (option string) :=
  try_except (
    s_num ← lift (last_char array);
    let sensor := "antenna_channelised_voltage_centre_frequency" in
    cbf_prefix ← r_get (array +:+ ":cbf_prefix");
    let sensor_key := array +:+ ":subarray_" +:+ s_num +:+ "_streams_"
                        +:+ fmt_opt cbf_prefix +:+ "_" +:+ sensor in
    centre_freq ← r_get sensor_key;
    centre_freq ← lift (float_arg centre_freq);
    let centre_freq := fdiv centre_freq (F_of_Z 1000000) in
    mret (format_17g centre_freq)).

Definition bandwidth (array : string) : M (option float) :=
  try_except (
    cbf_prefix ← r_get (array +:+ ":cbf_prefix");
    n ← lift (last_char array);
    let sensor := "cbf_" +:+ n +:+ "_" +:+ fmt_opt cbf_prefix +:+ "_bandwidth" in
    bandwidth ← r_get sensor;
    bandwidth ← lift (float_arg bandwidth);
    mret (fdiv bandwidth (F_of_Z 1000000))).

Definition check_primary_time (array : string) : M bool :=
  array_num ← lift (last_char array);
  let key := array +:+ ":subarray_" +:+ array_num +:+ "_script_proposal_id" in
  proposal_id ← r_get key;
  match proposal_id with
  | None => mret false
  | Some proposal_id =>
      if PyStr.truthy proposal_id
      then mret (String.eqb (PyStr.strip_chars "'" proposal_id)
                            "DDT-20230920-DC-01")
      else mret false
  end.

(** ** Hashpipe-Redis gateway keys *)

(** [redis_util.set_group_key(r, array, key, val)] *)
Definition set_group_key (array key : string) (v : value) : M unit :=
  emit (SetGroupKey array key v).

Fixpoint set_datadir (array pktstart_str : string) (instance_numbers : list Z)
    (sb_id : string) : M unit :=
  match instance_numbers with
  | [] => mret tt
  | instance_n :: rest =>
      let group := HPGDOMAIN +:+ ":" +:+ array +:+ "-"
                     +:+ str_of_int instance_n +:+ "///set" in
      let datadir := "/buf" +:+ str_of_int instance_n +:+ "/"
                       +:+ pktstart_str +:+ "-" +:+ sb_id in
      _ ← emit (GatewayMsg group "DATADIR" (VStr datadir) false);
      set_datadir array pktstart_str rest sb_id
  end.

Fixpoint add_unprocessed (recording : list string) (pktstart_str sb_id : string)
    : M unit :=
  match recording with
  | [] => mret tt
  | instance :: rest =>
      parts ← lift (PyStr.split "/" instance);
      match parts with
      | [host; n] =>
          let datadir := "/buf" +:+ n +:+ "/" +:+ pktstart_str +:+ "-" +:+ sb_id in
          _ ← emit (Lpush (instance +:+ ":unprocessed") datadir);
          add_unprocessed rest pktstart_str sb_id
      | _ => raise ValueError
      end
  end.

(** [request_targets] never gets as far as publishing: [centre_freq]
    returns the frequency formatted as a [str] (or [None]) and
    [bandwidth] a [float] (or [None]), so forming
    [centre_freq(r, array) + bandwidth(r, array)/2] raises
    [TypeError] whatever the sensors hold. *)
Definition request_targets (array : string) (pktstart_ts : float)
    (target : string) (ra_deg dec_deg : float) : M unit :=
  band ← obs_band array;
  cf ← centre_freq array;
  bw ← bandwidth array;
  raise TypeError.

(** [annotate]: the Grafana annotation. *)
Definition annotate (tag text : string) : M unit := emit (Annotate tag text).

(** [redis_util.alert(r, msg, name)] *)
Definition alert (msg name : string) : M unit := emit (Alert msg name).

(** [timeout] *)
Definition timeout (array channel : string) : M unit :=
  emit (Publish channel ("rec-timeout:" +:+ array)).

(** ** [record] *)

Definition as_float (o : outcome float) : M value :=
  x ← lift o; mret (VFloat x).

(** Two lines of [record] are read as they are evidently meant: the
    f-string of [obsid] closes its field with a bracket, and the call
    to [add_unprocessed] ends in a colon.  The call to
    [write_metadata] names [instance] and [datadir], which are bound
    nowhere: [NameError]. *)
Definition record (array : string) (instances : list string)
    : M (option (gset string)) :=
  target_data ← Util.retry (V := option target_data)
                   (fun o => bool_decide (is_Some o)) sleep 5 5
                   (get_primary_target array 16 "|");
  match target_data with
  | Some (Some target_data) =>
      _ ← emit (TimerStart 60 (RunGetCals array));
      _ ← set_group_key array "DWELL" (VInt DEFAULT_DWELL);
      pktstart_data ← get_pktstart instances PKTIDX_MARGIN array;
      match pktstart_data with
      | None => mret None
      | Some pktstart_data =>
          let pktstart := pktstart pktstart_data in
          let pktstart_ts := pktstart_ts pktstart_data in
          let pktstart_str := pktstart_str pktstart_data in
          fecenter ← centre_freq array;
          match fecenter with
          | None => mret None
          | Some fecenter =>
              if negb (PyStr.truthy fecenter) then mret None
              else
                r ← get_db;
                let sb_id := sb_id r array in
                _ ← set_datadir array pktstart_str [0; 1] sb_id;
                _ ← set_group_key array "SRC_NAME" (VStr (target target_data));
                ra_d ← lift (Util.ra_degrees (ra target_data));
                _ ← set_group_key array "RA" (VFloat ra_d);
                _ ← set_group_key array "RA_STR" (VStr (ra target_data));
                dec_d ← lift (Util.dec_degrees (dec target_data));
                _ ← set_group_key array "DEC" (VFloat dec_d);
                _ ← set_group_key array "DEC_STR" (VStr (dec target_data));
                let obsid := "MeerKAT:" +:+ array +:+ ":" +:+ pktstart_str in
                _ ← set_group_key array "OBSID" (VStr obsid);
                _ ← set_group_key array "PKTSTART" (VStr (str_of_int pktstart));
                _ ← annotate "RECORD" (array +:+ ", OBSID: " +:+ obsid);
                _ ← request_targets array pktstart_ts (target target_data)
                      ra_d dec_d;
                primary ← check_primary_time array;
                _ ← (if (primary : bool) return M unit
                     then alert (":zap: `" +:+ array +:+
                            "` Primary time detected, human intervention required after recording")
                            "coordinator"
                     else add_unprocessed (elements (list_to_set instances : gset string))
                            pktstart_str sb_id);
                raise NameError
          end
      end
  | _ => mret None
  end.

(** ** Successive runs of [get_cals] *)

Definition with_tel (t : telstate) (w : world) : world :=
  {| db := db w; tel := t; now := now w; trace := trace w |}.

(** One run of [get_cals] after another, the telescope state at the
    i-th run being the i-th of [tels]. *)
Fixpoint get_cals_each (array : string) (tels : list telstate) (w : world)
    : world :=
  match tels with
  | [] => w
  | t :: rest => get_cals_each array rest (snd (get_cals array (with_tel t w)))
  end.

(** The stored time of the last calibration, as [get_cals] reads it. *)
Definition stored_last_cal (array : string) (w : world) : outcome float :=
  ts_or_zero (kv (db w) !! (array +:+ ":last-cal")).

(** Fetching the solutions saves them under keys of their own. *)
Definition keeps_last_cal (array : string) (t : telstate) : Prop :=
  forall r, kv (snd (tel_query t array r)) !! (array +:+ ":last-cal")
            = kv r !! (array +:+ ":last-cal").

(** ** Reading a trace *)

(** The key a gateway publication sets, if the event is one. *)
Definition published_key (e : event) : option string :=
  match e with
  | SetGroupKey _ key _ => Some key
  | GatewayMsg _ key _ _ => Some key
  | _ => None
  end.

Definition published (t : list event) : list string :=
  omap published_key t.

(** The gateway keys of [record], in the order of its text. *)
Definition session_keys : list string :=
  ["DWELL"; "DATADIR"; "DATADIR"; "SRC_NAME"; "RA"; "RA_STR"; "DEC";
   "DEC_STR"; "OBSID"; "PKTSTART"].

(** [w'] is [w] after more events, whose publications set [keys]
    in that order. *)
Definition publishes (w w' : world) (keys : list string) : Prop :=
  exists new, trace w' = (trace w ++ new)%list /\ published new = keys.

End WithFloat.

End RecUtil.

(** * coordinator/coordinator.py *)

Module Coordinator.

Section Loop.
(** A message as [ps.listen()] yields it, a state machine object, and
    the heap the machines live in. *)
Context {message machine heap : Type}.

(** [redis_util.parse_msg(message)]: the components of a message, or
    nothing. *)
Variable parse_msg : message -> option (list string).

(** What a machine is handed: the event named in a message, or, for
    a processing return, the message itself. *)
Inductive payload : Type :=
| Event (event : string)
| Message (m : message).

(** [machine.state.handle_event(x)], from [coordinator.states]; taken
    as total. *)
Variable handle_event : machine -> payload -> heap -> heap.

(** The two dictionaries of machines, keyed by subarray, in insertion
    order. *)
Record coordinator : Type := {
  freesubscribed_machines : list (string * machine);
  recproc_machines : list (string * machine)
}.

(** [d[key]] *)
Fixpoint getitem (d : list (string * machine)) (key : string) : outcome machine :=
  match d with
  | [] => Raised KeyError
  | (k, m) :: d' => if String.eqb k key then Returned m else getitem d' key
  end.

(** The heap together with the calls of [handle_event] made so far. *)
Definition state : Type := heap * list (machine * payload).

Definition call_handle_event (m : machine) (p : payload) (st : state) : state :=
  (handle_event m p (fst st), (snd st ++ [(m, p)])%list).

(** [for machine in self.recproc_machines.values(): ...] *)
Definition processing_return (self : coordinator) (msg : message)
    (st : state) : state :=
  fold_left (fun st km => call_handle_event (snd km) (Message msg) st)
            (recproc_machines self) st.

(** The body of [for message in ps.listen()]. *)
Definition on_message (self : coordinator) (msg : message) (st : state)
    : outcome unit * state :=
  match parse_msg msg with
  | Some (c0 :: rest) =>
      if String.eqb c0 "RETURN"
      then (Returned tt, processing_return self msg st)
      else
        let array := c0 in
        match PyStr.index (c0 :: rest) 1 with
        | Raised e => (Raised e, st)
        | Returned event =>
            match getitem (freesubscribed_machines self) array with
            | Raised e => (Raised e, st)
            | Returned fs =>
                let st := call_handle_event fs (Event event) st in
                match getitem (recproc_machines self) c0 with
                | Raised e => (Raised e, st)
                | Returned rp =>
                    (Returned tt, call_handle_event rp (Event event) st)
                end
            end
        end
  | _ => (Returned tt, st)
  end.

(** The loop over the messages received, up to the first exception. *)
Fixpoint listen (self : coordinator) (msgs : list message) (st : state)
    : outcome unit * state :=
  match msgs with
  | [] => (Returned tt, st)
  | msg :: rest =>
      match on_message self msg st with
      | (Returned _, st1) => listen self rest st1
      | (Raised e, st1) => (Raised e, st1)
      end
  end.
End Loop.

End Coordinator.

(** * coordinator_states/proc.py *)

Module Proc.

Definition RESULT_CHANNEL : string := "proc_result".
Definition BFRDIR : string := "/home/obs/bfr5".
Definition PARTITION : string := "scratch".

Section Host.
(** The machine the script runs on: file system and Redis. *)
Context {host_state : Type}.

(** The operating system and [automator.proc_util], as the script
    uses them. *)
Class System : Type := {
  path_exists : string -> host_state -> bool;
  makedirs : string -> host_state -> outcome unit * host_state;
  subprocess_run : list string -> host_state -> outcome Z * host_state;
  rmtree : string -> host_state -> outcome unit * host_state;
  get_n_proc : host_state -> Z;
  increment_n_proc : host_state -> host_state;
  get_items : host_state -> string -> string -> gset string;
  timestamped_dir_from_filename : string -> string
}.
Context `{System}.

(** Observable actions: [shutil.rmtree(rm_path)] as called by
    [rm_datadir] for [datadir], and [r.publish]. *)
Inductive action : Type :=
| Rmtree (datadir rm_path : string)
| Published (channel msg : string).

Record state : Type := {
  os : host_state;
  actions : list action
}.

Definition P (A : Type) : Type := state -> outcome A * state.
Definition pbind {A B : Type} (c : P A) (k : A -> P B) : P B :=
  fun s =>
    match c s with
    | (Returned a, s1) => k a s1
    | (Raised e, s1) => (Raised e, s1)
    end.
#[global] Instance P_ret : MRet P := fun A a s => (Returned a, s).
#[global] Instance P_bind : MBind P := fun A B k c => pbind c k.

Definition plift {A : Type} (o : outcome A) : P A := fun s => (o, s).
Definition sys {A : Type} (f : host_state -> outcome A * host_state) : P A :=
  fun s => let '(o, h) := f (os s) in (o, {| os := h; actions := actions s |}).
Definition act (a : action) : P unit :=
  fun s => (Returned tt, {| os := os s; actions := actions s ++ [a] |}).

(** [try: c; return True] with both handlers returning [False]. *)
Definition succeeds (c : P unit) : P bool :=
  fun s =>
    match c s with
    | (Returned _, s1) => (Returned true, s1)
    | (Raised e, s1) =>
        if is_Exception e then (Returned false, s1) else (Raised e, s1)
    end.

(** [make_outputdir].  The script spells the call [os.path.makedirs];
    what that call does is left to [makedirs]. *)
Definition make_outputdir (outputdir : string) : P bool :=
  succeeds (sys (makedirs outputdir)).

Definition run_seticore (bfrdir inputdir tsdir partition : string) : P Z :=
  let outputdir := "/" +:+ partition +:+ "/data/" +:+ tsdir +:+ "/seticore_search" in
  ok ← make_outputdir outputdir;
  if negb ok then mret 2
  else
    let seticore_command :=
      ["/home/lacker/bin/seticore"; "--input"; inputdir;
       "--output"; outputdir; "--snr"; "6"; "--num_bands"; "16";
       "--fine_channels"; "8388608"; "--telescope_id"; "64";
       "--recipe_dir"; bfrdir] in
    n ← (fun s => (Returned (get_n_proc (os s)), s));
    let h5dir := "/" +:+ partition +:+ "/data/" +:+ tsdir +:+ "/seticore_beamformer" in
    ok5 ← (if n mod 10 =? 0 return P bool then make_outputdir h5dir else mret true);
    if negb ok5 then mret 2
    else
      let seticore_command :=
        if n mod 10 =? 0 then (seticore_command ++ ["--h5_dir"; h5dir])%list
        else seticore_command in
      _ ← sys (fun h => (Returned tt, increment_n_proc h));
      sys (subprocess_run seticore_command).

Definition rm_datadir (datadir instance_number : string) : P bool :=
  components ← plift (PyStr.split "/" datadir);
  c1 ← plift (PyStr.index components 1);
  if negb (String.eqb c1 "buf0ro") then mret false
  else
    datadir_id ← plift (PyStr.index components 2);
    let root := "/buf" +:+ instance_number in
    let rm_path := root +:+ "/" +:+ datadir_id in
    succeeds (_ ← act (Rmtree datadir rm_path); sys (rmtree rm_path)).

(** The first loop of [process]: [results], and whether [result] has
    been bound. *)
Fixpoint run_all (todo : list string) (results : gmap string Z) (bound : bool)
    : P (gmap string Z * bool) :=
  match todo with
  | [] => mret (results, bound)
  | datadir :: rest =>
      present ← (fun s => (Returned (path_exists datadir (os s)), s));
      if negb present then run_all rest results bound
      else
        let tsdir := timestamped_dir_from_filename datadir in
        result ← run_seticore BFRDIR datadir tsdir PARTITION;
        run_all rest (<[datadir := result]> results) true
  end.

(** The clean-up loop of [process]. *)
Fixpoint clean_up (to_clean : list string) (results : gmap string Z)
    (n : string) (max_returncode : Z) : P Z :=
  match to_clean with
  | [] => mret max_returncode
  | datadir :: rest =>
      res ← plift (Out.of_option KeyError (results !! datadir));
      if res >? 1 then clean_up rest results n max_returncode
      else
        removed ← rm_datadir datadir n;
        let res := if negb removed then 2 else res in
        clean_up rest results n
          (if res >? max_returncode then res else max_returncode)
  end.

(** [name] is the literal the script writes: the [f] stands inside
    the quotes. *)
Definition process (host n : string) : P unit :=
  let name := "f{host}/{n}" in
  unprocessed ← (fun s => (Returned (get_items (os s) name "unprocessed"), s));
  preserved ← (fun s => (Returned (get_items (os s) name "preserved"), s));
  '(results, bound) ← run_all (elements unprocessed) ∅ false;
  if negb bound then plift (Raised UnboundLocalError)
  else
    let to_clean := unprocessed ∖ preserved in
    max_returncode ← clean_up (elements to_clean) results n 0;
    act (Published RESULT_CHANNEL
           ("RETURN:" +:+ name +:+ ":" +:+ RecUtil.str_of_int max_returncode)).

(** [datadir] has the form "/buf0ro/<id>/..." and [rm_path] is the
    directory of that [id] under the buffer of instance [n]. *)
Definition clears (n datadir rm_path : string) : Prop :=
  exists components datadir_id,
    PyStr.split "/" datadir = Returned components /\
    components !! 1%nat = Some "buf0ro" /\
    components !! 2%nat = Some datadir_id /\
    rm_path = "/buf" +:+ n +:+ "/" +:+ datadir_id.

Definition is_rmtree (a : action) : Prop := exists d p, a = Rmtree d p.
End Host.

End Proc.

(** * Laws of floats, and two concrete float types *)

Module FloatLaws.

(** The value of a plain decimal literal: digits with at most one
    point, after an optional sign. *)
Fixpoint decimal_go (acc : Z) (scale : option positive) (seen : bool)
    (s : string) : option Q :=
  match s with
  | EmptyString =>
      if seen then Some (Qmake acc (default 1%positive scale)) else None
  | String a s' =>
      match PyStr.digit_val a with
      | Some d =>
          decimal_go (10 * acc + d) (Pos.mul 10 <$> scale) true s'
      | None =>
          if Ascii.eqb a "."%char
          then match scale with
               | None => decimal_go acc (Some 1%positive) seen s'
               | Some _ => None
               end
          else None
      end
  end.

Definition decimal_value (s : string) : option Q :=
  match s with
  | String "-"%char t => Qopp <$> decimal_go 0 None false t
  | String "+"%char t => decimal_go 0 None false t
  | t => decimal_go 0 None false t
  end.

(** Twice the unit roundoff of a double. *)
Definition eps : Q := 1 # (2 ^ 52).

(** Magnitudes at which a double is normal. *)
Definition tiny : Q := 1 # (2 ^ 1022).
Definition huge : Q := inject_Z (2 ^ 1023).

(** A bound on the rounding error of a result of magnitude up to ten
    thousand, with room to spare. *)
Definition slack : Q := 1 # 1000000000.

(** The least magnitude, other than zero, that the conversions to
    degrees work with, and the error they stay within. *)
Definition least : Q := 1 # 10000000.
Definition tolerance : Q := 1 # 100000000.

(** A bound on the rounding error of one operation at these
    magnitudes. *)
Definition fine : Q := 1 # 100000000000.

Section Laws.
Context `{PyFloat}.

Definition near (x : float) (q : Q) : Prop :=
  (Qabs (F2Q x - q) <= eps * Qabs q)%Q.

Definition normal (q : Q) : Prop :=
  (q == 0 \/ (tiny <= Qabs q /\ Qabs q <= huge))%Q.

(** Correct rounding, in the range of normal doubles: every
    operation returns its exact result up to a relative error of
    [eps], and [float()] does so for decimal literals. *)
Record rounding : Prop := {
  round_of_Q : forall q, normal q -> near (F_of_Q q) q;
  round_add : forall x y, normal (F2Q x + F2Q y) -> near (fadd x y) (F2Q x + F2Q y);
  round_sub : forall x y, normal (F2Q x - F2Q y) -> near (fsub x y) (F2Q x - F2Q y);
  round_mul : forall x y, normal (F2Q x * F2Q y) -> near (fmul x y) (F2Q x * F2Q y);
  round_div : forall x y, ~ (F2Q y == 0)%Q -> normal (F2Q x / F2Q y) ->
                          near (fdiv x y) (F2Q x / F2Q y);
  round_str : forall s q, decimal_value s = Some q -> normal q ->
                          exists x, float_of_str s = Some x /\ near x q
}.

(** [x] stands for the number [q] with an error of at most [e]: zero
    exactly, or a magnitude between [least] and ten thousand. *)
Definition approx (x : float) (q e : Q) : Prop :=
  (q == 0 /\ F2Q x == 0)%Q \/
  ((least <= q \/ q <= - least) /\ -10000 <= q /\ q <= 10000 /\
   q - e <= F2Q x /\ F2Q x <= q + e)%Q.

(** [<] on floats is a strict order (also in the presence of NaN),
    [repr(x)] is never empty and [float(repr(x))] gives [x] back. *)
Record ordered : Prop := {
  flt_irrefl : forall x, flt x x = false;
  flt_trans : forall x y z, flt x y = true -> flt y z = true -> flt x z = true;
  repr_truthy : forall x, PyStr.truthy (str_of_float x) = true;
  repr_float : forall x, float_of_str (str_of_float x) = Some x
}.
End Laws.

(** Rationals with exact arithmetic. *)
Definition exact : PyFloat := {|
  float := Q;
  F_of_Q := fun q => q;
  F2Q := fun q => q;
  fadd := Qplus;
  fsub := Qminus;
  fmul := Qmult;
  fdiv := Qdiv;
  flt := fun x y => negb (Qle_bool y x);
  float_of_str := decimal_value;
  str_of_float := fun _ => EmptyString
|}.

(** Whole seconds, written in decimal. *)
Definition whole : PyFloat := {|
  float := Z;
  F_of_Q := Qfloor;
  F2Q := inject_Z;
  fadd := Z.add;
  fsub := Z.sub;
  fmul := Z.mul;
  fdiv := Z.div;
  flt := Z.ltb;
  float_of_str := fun s => Z.of_int <$> NilEmpty.int_of_string s;
  str_of_float := fun z => NilEmpty.string_of_int (Z.to_int z)
|}.

End FloatLaws.

(** * Concrete settings the properties are exercised on *)

Module Demo.
Import RecUtil.

(** One packet per second since the epoch. *)
Definition collaborators : @Collaborators FloatLaws.exact :=
  @Build_Collaborators FloatLaws.exact
    (fun _ idx _ => inject_Z idx)
    (fun x : Q => Returned (Qfloor (x * 1000000)))
    (fun dt => "T" +:+ str_of_int (dt / 1000000) +:+ "Z")
    (fun _ _ => "sb0")
    (fun x : Q => str_of_int (Qfloor x)).

Definition quiet_telstate : @telstate FloatLaws.exact :=
  @Build_telstate FloatLaws.exact
    (fun _ => Returned tt)
    (Returned (100 # 1)%Q)
    (fun _ r => (Returned tt, r)).

Definition hyd_a : string :=
  "J0918-1205 | Hyd A, radec, 9:18:05.28, -12:05:48.9".

Definition status (netstat pktidx : string) : gmap string string :=
  <["NETSTAT" := netstat]> (<["PKTIDX" := pktidx]> ∅).

(** A server on which [array1] has a fresh target and three instances
    report packet indices 150, 200 and 100. *)
Definition server : redis := {|
  kv := list_to_map
    [("array1:target", hyd_a);
     ("array1:last-target", "1000");
     ("array1:last-track-end", "900");
     ("array1:cbf_prefix", "wide");
     ("array1:subarray_1_streams_wide_antenna_channelised_voltage_centre_frequency",
      "1284000000")];
  hashes := list_to_map
    [("bluse://blpn0/0/status", status "receiving" "150");
     ("bluse://blpn0/1/status", status "receiving" "200");
     ("bluse://blpn1/0/status", status "receiving" "100");
     ("bluse://blpn1/1/status", status "idle" "999")]
|}.

Definition instances : list string :=
  ["blpn0/0"; "blpn0/1"; "blpn1/0"; "blpn1/1"; "blpn2/0"].

Definition world_at (t : Z) : @world FloatLaws.exact :=
  {| db := server; tel := quiet_telstate; now := t; trace := [] |}.

(** A target whose name has a character of two bytes: "Cen" followed by
    e with an acute accent (C3 A9 in UTF-8), four characters in five
    bytes. *)
Definition cene : string :=
  "Cen" +:+ String (ascii_of_nat 195) (String (ascii_of_nat 169) EmptyString).

Definition cene_world : @world FloatLaws.exact :=
  with_db (set_kv "array1:target"
             (cene +:+ " A | x, radec, 9:18:05.28, -12:05:48.9") server)
          (world_at 0).

(** An operation that raises on its first call, returns [0] on its
    second and [7] from then on; its state is the number of calls
    made. *)
Definition flaky (calls : nat) : outcome Z * nat :=
  (match calls with
   | O => Raised (OtherException "ConnectionError")
   | 1%nat => Returned 0
   | _ => Returned 7
   end, Datatypes.S calls).

(** A processing node: the directories that exist and the count of
    processing runs.  [makedirs] creates the directory as [os.makedirs]
    would; seticore fails on one recording. *)
Record host : Type := {
  dirs : list string;
  n_proc : Z
}.

Definition rec_a : string := "/buf0ro/20231001T120000Z-sb0/Unknown/GUPPI".
Definition rec_kept : string := "/buf0ro/20231002T120000Z-sb1/Unknown/GUPPI".
Definition rec_bad : string := "/buf0ro/20231003T120000Z-sb2/Unknown/GUPPI".

Definition host_system : @Proc.System host :=
  @Proc.Build_System host
    (fun p h => bool_decide (p ∈ dirs h))
    (fun p h =>
       if bool_decide (p ∈ dirs h)
       then (Raised (OtherException "FileExistsError"), h)
       else (Returned tt, {| dirs := p :: dirs h; n_proc := n_proc h |}))
    (fun cmd h => (Returned (if bool_decide (rec_bad ∈ cmd) then 2 else 0), h))
    (fun p h =>
       if bool_decide (p ∈ dirs h)
       then (Returned tt,
             {| dirs := filter (fun d => d <> p) (dirs h); n_proc := n_proc h |})
       else (Raised (OtherException "FileNotFoundError"), h))
    n_proc
    (fun h => {| dirs := dirs h; n_proc := n_proc h + 1 |})
    (fun _ _ kind =>
       if String.eqb kind "unprocessed"
       then list_to_set [rec_a; rec_kept; rec_bad]
       else list_to_set [rec_kept])
    (fun d => d).

(** A telescope state that reports the phase-up time [t], in whole
    seconds, and a server with a configuration at 100 and the last
    calibration at 150. *)
Definition cal_telstate (t : Z) : @telstate FloatLaws.whole :=
  @Build_telstate FloatLaws.whole
    (fun _ => Returned tt)
    (Returned t)
    (fun array r => (Returned tt, set_kv (array +:+ ":cal_solutions") "saved" r)).

Definition cal_world : @world FloatLaws.whole :=
  {| db := {| kv := list_to_map
                [("array1:telstate_sensor", "array1:telstate_endpoint");
                 ("array1:telstate_endpoint", "('10.98.2.128', 31029)");
                 ("array1:last-config", "100");
                 ("array1:last-cal", "150")];
              hashes := ∅ |};
     tel := cal_telstate 0;
     now := 0;
     trace := [] |}.

(** The node as the script finds it: [os.path] has no [makedirs], so
    the call raises [AttributeError]; the directories in [on_disk]
    exist throughout. *)
Definition as_written (on_disk : list string) : @Proc.System unit :=
  @Proc.Build_System unit
    (fun p _ => bool_decide (p ∈ on_disk))
    (fun _ h => (Raised AttributeError, h))
    (fun _ h => (Returned 0, h))
    (fun _ h => (Returned tt, h))
    (fun _ => 0)
    (fun h => h)
    (fun _ _ kind =>
       if String.eqb kind "unprocessed"
       then list_to_set [rec_a; rec_kept; rec_bad]
       else list_to_set [rec_kept])
    (fun d => d).

Definition idle : @Proc.state unit := {| Proc.os := tt; Proc.actions := [] |}.

(** The same node with the two Redis lists given. *)
Definition shelf (unprocessed preserved : list string) : @Proc.System host :=
  @Proc.Build_System host
    (fun p h => bool_decide (p ∈ dirs h))
    (fun p h =>
       if bool_decide (p ∈ dirs h)
       then (Raised (OtherException "FileExistsError"), h)
       else (Returned tt, {| dirs := p :: dirs h; n_proc := n_proc h |}))
    (fun _ h => (Returned 0, h))
    (fun p h =>
       if bool_decide (p ∈ dirs h)
       then (Returned tt,
             {| dirs := filter (fun d => d <> p) (dirs h); n_proc := n_proc h |})
       else (Raised (OtherException "FileNotFoundError"), h))
    n_proc
    (fun h => {| dirs := dirs h; n_proc := n_proc h + 1 |})
    (fun _ _ kind =>
       if String.eqb kind "unprocessed"
       then list_to_set unprocessed
       else list_to_set preserved)
    (fun d => d).

Definition node : @Proc.state host :=
  {| Proc.os := {| dirs := [rec_a; rec_kept; rec_bad;
                            "/buf0/20231001T120000Z-sb0";
                            "/buf0/20231002T120000Z-sb1";
                            "/buf0/20231003T120000Z-sb2"];
                   n_proc := 3 |};
     Proc.actions := [] |}.

End Demo.

(** * Properties *)

(** ** Retries *)

Section RetryFacts.
Context {S D V : Type}.
Variable truthy : V -> bool.
Variable sleep : D -> S -> S.
Variable delay : D.
Variable function : S -> outcome V * S.

Lemma retry_loop_fail k s s' :
  Util.attempt_fails truthy sleep delay function s s' ->
  Util.retry_loop truthy sleep (Datatypes.S k) delay function s =
  Util.retry_loop truthy sleep k delay function s'.
Proof.
  intros [(v & s1 & Hf & Hv & ->) | (e & Hf & He)]; simpl; rewrite Hf.
  - now rewrite Hv.
  - now rewrite He.
Qed.

Lemma retry_loop_success k s v s1 :
  function s = (Returned v, s1) -> truthy v = true ->
  Util.retry_loop truthy sleep (Datatypes.S k) delay function s =
  (Returned (Some v), s1).
Proof. intros Hf Hv. simpl. now rewrite Hf, Hv. Qed.

Lemma retry_loop_calls k s c :
  (snd (snd (Util.retry_loop truthy (Util.sleep_counted sleep) k delay
               (Util.counted function) (s, c))) <= c + k)%nat.
Proof.
  revert s c. induction k as [|k IH]; intros s c; simpl.
  - lia.
  - unfold Util.counted at 1. simpl.
    destruct (function s) as [[v|e] s1].
    + destruct (truthy v); simpl; [lia|].
      specialize (IH (sleep delay s1) (Datatypes.S c)).
      unfold Util.sleep_counted at 2. simpl. lia.
    + destruct (is_Exception e); simpl; [|lia].
      specialize (IH s1 (Datatypes.S c)). lia.
Qed.

Lemma retry_loop_exhausted k s :
  (forall s0, exists s', Util.attempt_fails truthy sleep delay function s0 s') ->
  fst (Util.retry_loop truthy sleep k delay function s) = Returned None.
Proof.
  intros Hall. revert s. induction k as [|k IH]; intros s; [reflexivity|].
  destruct (Hall s) as [s' Hs']. rewrite (retry_loop_fail _ _ _ Hs'). apply IH.
Qed.
End RetryFacts.

(** C6.  [retry(n, d, f)] calls [f] at most [n] times: a counter that
    every call of [f] advances has moved by at most [n] when [retry] is
    done.  An exception of [f] that is an instance of [Exception] (what
    the handler names) is caught and uses up one attempt, as does a
    falsy result; the first truthy result is returned at once, in the
    state [f] left; when every attempt fails in one of these two ways
    the result is [None], not an exception.  For an [f] that fails
    twice and then succeeds, three or more retries return the success
    value and two return [None].  An exception that is no instance of
    [Exception] is not caught: it leaves [retry] from the call that
    raised it. *)
Theorem retry_bounded_attempts {S D V : Type} (truthy : V -> bool)
    (sleep : D -> S -> S) (delay : D) (function : S -> outcome V * S) :
  (forall n s c,
      (snd (snd (Util.retry truthy (Util.sleep_counted sleep) n delay
                   (Util.counted function) (s, c))) <= c + Z.to_nat n)%nat) /\
  (forall k s s',
      Util.attempt_fails truthy sleep delay function s s' ->
      Util.retry_loop truthy sleep (Datatypes.S k) delay function s =
      Util.retry_loop truthy sleep k delay function s') /\
  (forall k s v s1,
      function s = (Returned v, s1) -> truthy v = true ->
      Util.retry_loop truthy sleep (Datatypes.S k) delay function s =
      (Returned (Some v), s1)) /\
  (forall n s,
      (forall s0, exists s', Util.attempt_fails truthy sleep delay function s0 s') ->
      fst (Util.retry truthy sleep n delay function s) = Returned None) /\
  (forall s0 s1 s2 s3 v,
      Util.attempt_fails truthy sleep delay function s0 s1 ->
      Util.attempt_fails truthy sleep delay function s1 s2 ->
      function s2 = (Returned v, s3) -> truthy v = true ->
      (forall n, 3 <= n ->
         Util.retry truthy sleep n delay function s0 = (Returned (Some v), s3)) /\
      Util.retry truthy sleep 2 delay function s0 = (Returned None, s2)) /\
  (forall k s e s1,
      function s = (Raised e, s1) -> is_Exception e = false ->
      Util.retry_loop truthy sleep (Datatypes.S k) delay function s =
      (Raised e, s1)).
Proof.
  split; [|split; [|split; [|split; [|split]]]].
  - intros n s c. apply retry_loop_calls.
  - intros k s s'. apply retry_loop_fail.
  - intros k s v s1. apply retry_loop_success.
  - intros n s Hall. now apply retry_loop_exhausted.
  - intros s0 s1 s2 s3 v H01 H12 Hf Hv. split.
    + intros n Hn. unfold Util.retry.
      destruct (Z.to_nat n) as [|[|[|k]]] eqn:E; try lia.
      rewrite (retry_loop_fail _ _ _ _ _ _ _ H01),
        (retry_loop_fail _ _ _ _ _ _ _ H12).
      now apply retry_loop_success.
    + unfold Util.retry. change (Z.to_nat 2) with 2%nat.
      now rewrite (retry_loop_fail _ _ _ _ _ _ _ H01),
        (retry_loop_fail _ _ _ _ _ _ _ H12).
  - intros k s e s1 Hf He. simpl. now rewrite Hf, He.
Qed.

Lemma retry_bounded_attempts_witness :
  Util.retry (fun v => negb (v =? 0)) (fun (_ : Z) (s : nat) => s) 3 5 Demo.flaky 0%nat
    = (Returned (Some 7), 3%nat) /\
  Util.retry (fun v => negb (v =? 0)) (fun (_ : Z) (s : nat) => s) 2 5 Demo.flaky 0%nat
    = (Returned None, 2%nat).
Proof.
  destruct (retry_bounded_attempts (fun v => negb (v =? 0))
              (fun (_ : Z) (s : nat) => s) 5 Demo.flaky)
    as (_ & _ & _ & _ & Hflaky & _).
  destruct (Hflaky 0%nat 1%nat 2%nat 3%nat 7) as [H3 H2].
  - right. exists (OtherException "ConnectionError"). split; reflexivity.
  - left. exists 0, 2%nat. repeat split; reflexivity.
  - reflexivity.
  - reflexivity.
  - split; [apply (H3 3); lia | exact H2].
Defined.

(** A [KeyboardInterrupt] raised by the first call is not counted as a
    failed attempt: with three retries allowed, [retry] raises it after
    that one call. *)
Lemma retry_lets_keyboard_interrupt_through :
  Util.retry (fun v : Z => negb (v =? 0)) (fun (_ : Z) (s : nat) => s) 3 5
    (fun s : nat => (Raised (NonException "KeyboardInterrupt"), Datatypes.S s))
    0%nat
  = (Raised (NonException "KeyboardInterrupt"), 1%nat).
Proof. reflexivity. Qed.

(** ** PKTSTART *)

Section PktstartFacts.
Import RecUtil.
Context `{PyFloat} `{!Collaborators}.

Lemma get_pkt_idx_absent r key :
  hashes r !! key = None -> get_pkt_idx r key = None.
Proof. intros E. unfold get_pkt_idx. now rewrite E. Qed.

Lemma get_pkt_idx_no_netstat r key h :
  hashes r !! key = Some h -> h !! "NETSTAT" = None -> get_pkt_idx r key = None.
Proof.
  intros E N. unfold get_pkt_idx. rewrite E. simpl. rewrite N.
  now destruct (0 <? size h)%nat.
Qed.

Lemma get_pkt_idx_idle r key h :
  hashes r !! key = Some h -> h !! "NETSTAT" = Some "idle" ->
  get_pkt_idx r key = None.
Proof.
  intros E N. unfold get_pkt_idx. rewrite E. simpl. rewrite N.
  now destruct (0 <? size h)%nat.
Qed.

Lemma get_pkt_idx_no_pktidx r key h :
  hashes r !! key = Some h -> h !! "PKTIDX" = None -> get_pkt_idx r key = None.
Proof.
  intros E N. unfold get_pkt_idx. rewrite E. simpl.
  destruct (0 <? size h)%nat; [|reflexivity].
  destruct (h !! "NETSTAT") as [ns|]; [|reflexivity].
  now destruct (String.eqb ns "idle").
Qed.

Lemma collect_app r l1 l2 :
  collect_pkt_indices r (l1 ++ l2) =
  (collect_pkt_indices r l1 ++ collect_pkt_indices r l2)%list.
Proof. unfold collect_pkt_indices. apply omap_app. Qed.

Lemma collect_excluded r l1 l2 instance :
  get_pkt_idx r (status_key instance) = None ->
  collect_pkt_indices r (l1 ++ instance :: l2) = collect_pkt_indices r (l1 ++ l2).
Proof.
  intros E. rewrite !collect_app. f_equal.
  unfold collect_pkt_indices. simpl. now rewrite E.
Qed.

Lemma collect_none r instances :
  (forall i, i ∈ instances -> get_pkt_idx r (status_key i) = None) ->
  collect_pkt_indices r instances = [].
Proof.
  induction instances as [|i l IH]; intros Hall; [reflexivity|].
  unfold collect_pkt_indices in *. simpl.
  rewrite (Hall i) by apply list_elem_of_here.
  apply IH. intros j Hj. apply Hall. now apply list_elem_of_further.
Qed.

(** [get_pktstart] looks at the instances only through the list of
    indices it collects. *)
Lemma get_pktstart_collect l l' margin array w :
  collect_pkt_indices (db w) l = collect_pkt_indices (db w) l' ->
  get_pktstart l margin array w = get_pktstart l' margin array w.
Proof.
  intros E. unfold get_pktstart, mbind, M_bind, bind, get_db. now rewrite E.
Qed.

Lemma asarray_int64_length l zs :
  asarray_int64 l = Returned zs -> length zs = length l.
Proof.
  revert zs. induction l as [|s l IH]; intros zs E; simpl in E.
  - now inversion E.
  - destruct (to_int64 s) as [z|e]; [|discriminate]. simpl in E.
    destruct (asarray_int64 l) as [zs'|e]; [|discriminate]. simpl in E.
    inversion E; subst. simpl. f_equal. now apply IH.
Qed.

Lemma asarray_int64_cons s l z zs :
  to_int64 s = Returned z -> asarray_int64 l = Returned zs ->
  asarray_int64 (s :: l) = Returned (z :: zs).
Proof. intros E1 E2. simpl. rewrite E1. simpl. now rewrite E2. Qed.

Lemma asarray_int64_inv s l zs :
  asarray_int64 (s :: l) = Returned zs ->
  exists z zs', zs = z :: zs' /\ to_int64 s = Returned z /\
                asarray_int64 l = Returned zs'.
Proof.
  simpl. destruct (to_int64 s) as [z|e]; [|discriminate]. simpl.
  destruct (asarray_int64 l) as [zs'|e]; [|discriminate]. simpl.
  intros E. inversion E. eauto.
Qed.

(** Converting the indices in another order gives the same integers
    in that order. *)
Lemma asarray_int64_perm l l' :
  l ≡ₚ l' -> forall zs, asarray_int64 l = Returned zs ->
  exists zs', asarray_int64 l' = Returned zs' /\ zs ≡ₚ zs'.
Proof.
  induction 1 as [|s l l' _ IH|s t l|l l' l'' _ IH1 _ IH2]; intros zs E.
  - exists zs. split; [assumption|reflexivity].
  - destruct (asarray_int64_inv _ _ _ E) as (z & zs0 & -> & Es & El).
    destruct (IH _ El) as (zs' & E' & P).
    exists (z :: zs'). split; [now apply asarray_int64_cons|now constructor].
  - destruct (asarray_int64_inv _ _ _ E) as (z & zs0 & -> & Es & El).
    destruct (asarray_int64_inv _ _ _ El) as (y & zs1 & -> & Et & El').
    exists (y :: z :: zs1). split; [|apply perm_swap].
    apply asarray_int64_cons; [assumption|now apply asarray_int64_cons].
  - destruct (IH1 _ E) as (zs' & E' & P').
    destruct (IH2 _ E') as (zs'' & E'' & P'').
    exists zs''. split; [assumption|now transitivity zs'].
Qed.

Lemma fold_max_ge a z : z <= fold_left Z.max a z.
Proof.
  revert z. induction a as [|x a IH]; intros z; simpl; [lia|].
  specialize (IH (Z.max z x)). lia.
Qed.

Lemma fold_max_upper a z x : x ∈ a -> x <= fold_left Z.max a z.
Proof.
  revert z. induction a as [|y a IH]; intros z Hx; simpl.
  - now apply elem_of_nil in Hx.
  - apply elem_of_cons in Hx as [->|Hx]; [|now apply IH].
    pose proof (fold_max_ge a (Z.max z y)). lia.
Qed.

Lemma fold_max_in a z : fold_left Z.max a z ∈ z :: a.
Proof.
  revert z. induction a as [|y a IH]; intros z; simpl.
  - apply list_elem_of_here.
  - specialize (IH (Z.max z y)).
    apply elem_of_cons in IH as [E|IH].
    + rewrite E. destruct (Z.max_spec z y) as [[_ ->]|[_ ->]].
      * apply list_elem_of_further, list_elem_of_here.
      * apply list_elem_of_here.
    + apply list_elem_of_further. now apply list_elem_of_further.
Qed.

(** [np.max] returns the greatest element, whatever the order. *)
Lemma np_max_greatest zs hi :
  hi ∈ zs -> (forall z, z ∈ zs -> z <= hi) -> np_max zs = Returned hi.
Proof.
  intros Hin Hub. destruct zs as [|z a]; [now apply elem_of_nil in Hin|].
  simpl. f_equal. apply Z.le_antisymm.
  - apply Hub, fold_max_in.
  - apply elem_of_cons in Hin as [->|Hin];
      [apply fold_max_ge|now apply fold_max_upper].
Qed.

Lemma wrap64_id z : in_int64 z = true -> wrap64 z = z.
Proof.
  unfold in_int64, wrap64, int64_min, int64_max. intros Hz.
  apply andb_true_iff in Hz as [Hlo Hhi].
  apply Z.leb_le in Hlo, Hhi.
  rewrite Z.mod_small by lia. lia.
Qed.

(** The run of [get_pktstart] once the indices are converted, up to
    the plausibility check. *)
Lemma get_pktstart_checked instances margin array w zs hi p dt :
  asarray_int64 (collect_pkt_indices (db w) instances) = Returned zs ->
  np_max zs = Returned hi ->
  int64_add hi margin = Returned p ->
  utcfromtimestamp (pktidx_to_timestamp (db w) p array) = Returned dt ->
  get_pktstart instances margin array w =
  if Z.abs (dt - now w) >? two_minutes then
    (Returned None,
     {| db := db w; tel := tel w; now := now w;
        trace := trace w ++
          [Alert (":warning: `" +:+ array +:+ "` bad pktstart")
                 "coordinator"] |})
  else
    (Returned (Some {| pktstart := p;
                       pktstart_str := strftime dt;
                       pktstart_ts := pktidx_to_timestamp (db w) p array |}),
     w).
Proof.
  intros Ea Em Ep Ed.
  pose proof (asarray_int64_length _ _ Ea) as Hlen.
  unfold get_pktstart, mbind, M_bind, bind, get_db, lift, utcnow.
  destruct (collect_pkt_indices (db w) instances) as [|s l] eqn:Ec.
  - simpl in Ea. inversion Ea; subst. discriminate.
  - change (0 <? length (s :: l))%nat with true. cbv iota.
    rewrite Ea, Em, Ep, Ed.
    destruct (Z.abs (dt - now w) >? two_minutes); reflexivity.
Qed.

(** C1. When the instances report packet indices (decimal integers
    that fit in 64 bits), the margin and the sum fit in 64 bits and
    the plausibility check passes, [get_pktstart] returns a result
    whose [pktstart] is the greatest reported index plus the margin;
    the greatest index is the element that bounds all the others, so
    the instances listed in any other order give the same result. *)
Theorem get_pktstart_max_plus_margin
    (instances instances' : list string) (margin : Z) (array : string)
    (w : world) (zs : list Z) (hi dt : Z) :
  instances' ≡ₚ instances ->
  asarray_int64 (collect_pkt_indices (db w) instances) = Returned zs ->
  hi ∈ zs -> (forall z, z ∈ zs -> z <= hi) ->
  in_int64 margin = true -> in_int64 (hi + margin) = true ->
  utcfromtimestamp (pktidx_to_timestamp (db w) (hi + margin) array)
    = Returned dt ->
  Z.abs (dt - now w) <= two_minutes ->
  exists d,
    get_pktstart instances margin array w = (Returned (Some d), w) /\
    get_pktstart instances' margin array w = (Returned (Some d), w) /\
    pktstart d = hi + margin.
Proof.
  intros Hperm Ea Hin Hub Hm Hsum Ed Hnear.
  assert (Ep : int64_add hi margin = Returned (hi + margin)).
  { unfold int64_add. rewrite Hm. f_equal. now apply wrap64_id. }
  assert (Hchk : (Z.abs (dt - now w) >? two_minutes) = false).
  { rewrite Z.gtb_ltb. now apply Z.ltb_ge. }
  assert (Hc : collect_pkt_indices (db w) instances ≡ₚ
               collect_pkt_indices (db w) instances').
  { unfold collect_pkt_indices. now rewrite Hperm. }
  destruct (asarray_int64_perm _ _ Hc _ Ea) as (zs' & Ea' & Hzs).
  eexists. split; [|split].
  - rewrite (get_pktstart_checked _ _ _ _ zs hi _ dt Ea
               (np_max_greatest _ _ Hin Hub) Ep Ed).
    rewrite Hchk. reflexivity.
  - assert (Em' : np_max zs' = Returned hi).
    { apply np_max_greatest.
      - now rewrite <- Hzs.
      - intros z Hz. apply Hub. now rewrite Hzs. }
    rewrite (get_pktstart_checked _ _ _ _ zs' hi _ dt Ea' Em' Ep Ed).
    rewrite Hchk. reflexivity.
  - reflexivity.
Qed.

(** C2. [get_pkt_idx] gives nothing for an instance whose status hash
    is missing or empty, has no NETSTAT, has NETSTAT equal to "idle",
    or has no PKTIDX; [get_pktstart] on a list with such an instance
    runs exactly as on the list without it; and when every instance is
    of that kind [get_pktstart] returns [None] and changes nothing. *)
Theorem get_pktstart_skips_inactive (w : world) :
  (forall key h,
     hashes (db w) !! key = None \/
     hashes (db w) !! key = Some h /\
     (h = ∅ \/ h !! "NETSTAT" = None \/ h !! "NETSTAT" = Some "idle" \/
      h !! "PKTIDX" = None) ->
     get_pkt_idx (db w) key = None) /\
  (forall l1 l2 instance margin array,
     get_pkt_idx (db w) (status_key instance) = None ->
     get_pktstart (l1 ++ instance :: l2) margin array w =
     get_pktstart (l1 ++ l2) margin array w) /\
  (forall instances margin array,
     (forall i, i ∈ instances ->
                get_pkt_idx (db w) (status_key i) = None) ->
     get_pktstart instances margin array w = (Returned None, w)).
Proof.
  split; [|split].
  - intros key h [E|[E [->|[N|[N|N]]]]].
    + now apply get_pkt_idx_absent.
    + unfold get_pkt_idx. rewrite E. reflexivity.
    + now apply (get_pkt_idx_no_netstat _ _ h).
    + now apply (get_pkt_idx_idle _ _ h).
    + now apply (get_pkt_idx_no_pktidx _ _ h).
  - intros l1 l2 instance margin array E.
    apply get_pktstart_collect. now apply collect_excluded.
  - intros instances margin array Hall.
    unfold get_pktstart, mbind, M_bind, bind, get_db.
    rewrite (collect_none _ _ Hall). reflexivity.
Qed.

(** C3. Once PKTSTART is computed, [get_pktstart] compares its time
    with the present: further apart than two minutes, it returns
    [None] and the only effect is the alert; two minutes apart or
    less, it returns the result and has no effect; exactly two
    minutes apart is of the second kind. *)
Theorem get_pktstart_two_minute_check
    (instances : list string) (margin : Z) (array : string) (w : world)
    (zs : list Z) (hi p dt : Z) :
  asarray_int64 (collect_pkt_indices (db w) instances) = Returned zs ->
  np_max zs = Returned hi ->
  int64_add hi margin = Returned p ->
  utcfromtimestamp (pktidx_to_timestamp (db w) p array) = Returned dt ->
  let result := {| pktstart := p;
                   pktstart_str := strftime dt;
                   pktstart_ts := pktidx_to_timestamp (db w) p array |} in
  (two_minutes < Z.abs (dt - now w) ->
   get_pktstart instances margin array w =
   (Returned None,
    {| db := db w; tel := tel w; now := now w;
       trace := trace w ++
         [Alert (":warning: `" +:+ array +:+ "` bad pktstart")
                "coordinator"] |})) /\
  (Z.abs (dt - now w) <= two_minutes ->
   get_pktstart instances margin array w = (Returned (Some result), w)) /\
  (Z.abs (dt - now w) = two_minutes ->
   get_pktstart instances margin array w = (Returned (Some result), w)).
Proof.
  intros Ea Em Ep Ed result.
  pose proof (get_pktstart_checked _ _ _ _ _ _ _ _ Ea Em Ep Ed) as Hrun.
  assert (Hle : Z.abs (dt - now w) <= two_minutes ->
                get_pktstart instances margin array w =
                (Returned (Some result), w)).
  { intros Hnear. rewrite Hrun.
    replace (Z.abs (dt - now w) >? two_minutes) with false;
      [reflexivity|].
    symmetry. rewrite Z.gtb_ltb. now apply Z.ltb_ge. }
  split; [|split].
  - intros Hfar. rewrite Hrun.
    replace (Z.abs (dt - now w) >? two_minutes) with true; [reflexivity|].
    symmetry. rewrite Z.gtb_ltb. now apply Z.ltb_lt.
  - exact Hle.
  - intros Heq. apply Hle. lia.
Qed.
End PktstartFacts.

Lemma get_pktstart_max_plus_margin_witness :
  exists d,
    @RecUtil.get_pktstart FloatLaws.exact Demo.collaborators Demo.instances 50 "array1" (Demo.world_at 250000000)
      = (Returned (Some d), Demo.world_at 250000000) /\
    @RecUtil.get_pktstart FloatLaws.exact Demo.collaborators (rev Demo.instances) 50 "array1"
      (Demo.world_at 250000000)
      = (Returned (Some d), Demo.world_at 250000000) /\
    RecUtil.pktstart d = 200 + 50.
Proof.
  apply (@get_pktstart_max_plus_margin FloatLaws.exact Demo.collaborators
           Demo.instances (rev Demo.instances) 50 "array1"
           (Demo.world_at 250000000) [150; 200; 100] 200 250000000).
  - apply Permutation_sym, Permutation_rev.
  - vm_compute. reflexivity.
  - apply list_elem_of_further, list_elem_of_here.
  - intros z Hz. repeat (apply elem_of_cons in Hz as [->|Hz]; [lia|]).
    now apply elem_of_nil in Hz.
  - reflexivity.
  - reflexivity.
  - vm_compute. reflexivity.
  - vm_compute. discriminate.
Defined.

Lemma get_pktstart_skips_inactive_witness :
  @RecUtil.get_pktstart FloatLaws.exact Demo.collaborators ["blpn0/0"; "blpn1/1"; "blpn0/1"] 50 "array1"
    (Demo.world_at 250000000) =
  @RecUtil.get_pktstart FloatLaws.exact Demo.collaborators ["blpn0/0"; "blpn0/1"] 50 "array1"
    (Demo.world_at 250000000) /\
  @RecUtil.get_pktstart FloatLaws.exact Demo.collaborators ["blpn1/1"; "blpn2/0"] 50 "array1"
    (Demo.world_at 250000000) = (Returned None, Demo.world_at 250000000).
Proof.
  pose proof (@get_pktstart_skips_inactive FloatLaws.exact Demo.collaborators
                (Demo.world_at 250000000)) as (_ & Hskip & Hnone).
  split.
  - apply (Hskip ["blpn0/0"] ["blpn0/1"] "blpn1/1" 50 "array1").
    vm_compute. reflexivity.
  - apply Hnone. intros i Hi.
    repeat (apply elem_of_cons in Hi as [->|Hi]; [vm_compute; reflexivity|]).
    now apply elem_of_nil in Hi.
Defined.

Lemma get_pktstart_two_minute_check_witness :
  fst (@RecUtil.get_pktstart FloatLaws.exact Demo.collaborators Demo.instances 50 "array1"
         (Demo.world_at 370000001)) = Returned None /\
  RecUtil.trace (snd (@RecUtil.get_pktstart FloatLaws.exact Demo.collaborators Demo.instances 50 "array1"
                        (Demo.world_at 370000001))) =
  [RecUtil.Alert ":warning: `array1` bad pktstart" "coordinator"] /\
  exists d,
    @RecUtil.get_pktstart FloatLaws.exact Demo.collaborators Demo.instances 50 "array1" (Demo.world_at 370000000)
      = (Returned (Some d), Demo.world_at 370000000) /\
    RecUtil.pktstart d = 250.
Proof.
  destruct (@get_pktstart_two_minute_check FloatLaws.exact Demo.collaborators
              Demo.instances 50 "array1" (Demo.world_at 370000001)
              [150; 200; 100] 200 250 250000000) as (Hfar & _ & _);
    try (vm_compute; reflexivity).
  destruct (@get_pktstart_two_minute_check FloatLaws.exact Demo.collaborators
              Demo.instances 50 "array1" (Demo.world_at 370000000)
              [150; 200; 100] 200 250 250000000) as (_ & _ & Hedge);
    try (vm_compute; reflexivity).
  rewrite Hfar by (vm_compute; reflexivity).
  split; [reflexivity|]. split; [reflexivity|].
  eexists. split; [apply Hedge; vm_compute; reflexivity|reflexivity].
Defined.

(** ** The primary target *)

Section StringFacts.
Import PyStr.

Lemma append_cons a (s t : string) : String a s +:+ t = String a (s +:+ t).
Proof. reflexivity. Qed.

Lemma append_assoc (s t u : string) : (s +:+ t) +:+ u = s +:+ (t +:+ u).
Proof.
  induction s as [|a s IH]; [reflexivity|].
  rewrite !append_cons. now f_equal.
Qed.

Lemma rev_onto_app s t acc :
  rev_onto (s +:+ t) acc = rev_onto t (rev_onto s acc).
Proof.
  revert acc. induction s as [|a s IH]; intros acc; [reflexivity|].
  rewrite append_cons. simpl. apply IH.
Qed.

Lemma rev_onto_acc s acc : rev_onto s acc = rev s +:+ acc.
Proof.
  unfold rev. revert acc.
  induction s as [|a s IH]; intros acc; simpl; [reflexivity|].
  rewrite (IH (String a EmptyString)), IH.
  now rewrite append_assoc.
Qed.

Lemma rev_app s t : rev (s +:+ t) = rev t +:+ rev s.
Proof. unfold rev at 1. now rewrite rev_onto_app, rev_onto_acc. Qed.

Lemma rev_rev s : rev (rev s) = s.
Proof.
  induction s as [|a s IH]; [reflexivity|].
  unfold rev at 2. simpl. rewrite rev_onto_acc, rev_app, IH. reflexivity.
Qed.

Lemma lstrip_by_suffix p s : exists u, s = u +:+ lstrip_by p s.
Proof.
  induction s as [|a s [u IH]]; [now exists EmptyString|]. simpl.
  destruct (p a).
  - exists (String a u). rewrite append_cons. now f_equal.
  - now exists EmptyString.
Qed.

(** [strip] keeps a contiguous part of the string. *)
Lemma strip_by_part p s : exists u v, s = u +:+ strip_by p s +:+ v.
Proof.
  unfold strip_by.
  destruct (lstrip_by_suffix p s) as [u Hu].
  destruct (lstrip_by_suffix p (rev (lstrip_by p s))) as [v Hv].
  exists u, (rev v). rewrite <- rev_app, <- Hv, rev_rev. exact Hu.
Qed.

Lemma prefix_app sub s v :
  String.prefix sub s = true -> String.prefix sub (s +:+ v) = true.
Proof.
  revert s. induction sub as [|a sub IH]; intros s;
    [now destruct (s +:+ v)|].
  destruct s as [|b s]; [discriminate|]. rewrite append_cons. simpl.
  destruct (ascii_dec a b); [apply IH|discriminate].
Qed.

Lemma contains_app_r sub s v :
  contains sub s = true -> contains sub (s +:+ v) = true.
Proof.
  induction s as [|a s IH]; intros Hc.
  - simpl in Hc. rewrite orb_false_r in Hc.
    destruct sub; [|discriminate]. now destruct v.
  - change (String.prefix sub (String a s) || contains sub s = true) in Hc.
    rewrite append_cons.
    change (String.prefix sub (String a (s +:+ v))
            || contains sub (s +:+ v) = true).
    rewrite <- append_cons.
    apply orb_true_iff in Hc as [Hp|Hc]; apply orb_true_iff.
    + left. now apply prefix_app.
    + right. now apply IH.
Qed.

Lemma contains_app_l sub u s :
  contains sub s = true -> contains sub (u +:+ s) = true.
Proof.
  intros Hc. induction u as [|a u IH]; [exact Hc|].
  rewrite append_cons.
  change (String.prefix sub (String a (u +:+ s))
          || contains sub (u +:+ s) = true).
  rewrite IH. apply orb_true_r.
Qed.

Lemma contains_strip_by sub p s :
  contains sub s = false -> contains sub (strip_by p s) = false.
Proof.
  intros Hs. destruct (contains sub (strip_by p s)) eqn:E; [|reflexivity].
  destruct (strip_by_part p s) as (u & v & Hpart).
  rewrite Hpart in Hs.
  now rewrite (contains_app_l _ _ _ (contains_app_r _ _ v E)) in Hs.
Qed.
End StringFacts.

Section TargetFacts.
Import RecUtil.
Context `{PyFloat}.

(** C7. With both timestamps stored as numbers: for the target value
    "J0918-1205 | Hyd A, radec, 9:18:05.28, -12:05:48.9", length 68
    and a target that is not stale, [get_primary_target] returns the
    name "J0918-1205", the RA string "9:18:05.28" and the Dec string
    "-12:05:48.9"; for a stored target string without "radec" it
    returns [None]; and when the target's timestamp is less than the
    end of the last track minus 5 it returns [None] whatever is
    stored as the target. *)
Theorem get_primary_target_cases (array : string) (w : world)
    (target_ts last_track_end : float) :
  float_arg (kv (db w) !! (array +:+ ":last-target")) = Returned target_ts ->
  float_arg (kv (db w) !! (array +:+ ":last-track-end"))
    = Returned last_track_end ->
  let stale := flt target_ts (fsub last_track_end (F_of_Z 5)) in
  (stale = false ->
   kv (db w) !! (array +:+ ":target")
     = Some "J0918-1205 | Hyd A, radec, 9:18:05.28, -12:05:48.9" ->
   get_primary_target array 68 "|" w =
   (Returned (Some {| target := "J0918-1205";
                      ra := "9:18:05.28";
                      dec := "-12:05:48.9" |}), w)) /\
  (forall (s : string) (length : Z) (delimiter : string),
     stale = false ->
     kv (db w) !! (array +:+ ":target") = Some s ->
     PyStr.contains "radec" s = false ->
     get_primary_target array length delimiter w = (Returned None, w)) /\
  (forall (length : Z) (delimiter : string),
     stale = true ->
     get_primary_target array length delimiter w = (Returned None, w)).
Proof.
  intros Ets Ete stale. subst stale.
  split; [|split].
  - intros Hfresh Et.
    unfold get_primary_target, mbind, M_bind, bind, r_get, lift.
    rewrite Ets, Ete, Hfresh, Et. reflexivity.
  - intros s length delimiter Hfresh Et Hno.
    unfold get_primary_target, mbind, M_bind, bind, r_get, lift.
    rewrite Ets, Ete, Hfresh, Et.
    change (Out.of_option AttributeError (Some s)) with (Returned s).
    cbv iota beta.
    unfold PyStr.strip_chars.
    now rewrite (contains_strip_by "radec" _ s Hno).
  - intros length delimiter Hstale.
    unfold get_primary_target, mbind, M_bind, bind, r_get, lift.
    rewrite Ets, Ete, Hstale. reflexivity.
Qed.
End TargetFacts.

Lemma get_primary_target_cases_witness :
  @RecUtil.get_primary_target FloatLaws.exact "array1" 68 "|"
    (Demo.world_at 0) =
  (Returned (Some {| RecUtil.target := "J0918-1205";
                     RecUtil.ra := "9:18:05.28";
                     RecUtil.dec := "-12:05:48.9" |}), Demo.world_at 0).
Proof.
  apply (@get_primary_target_cases FloatLaws.exact "array1" (Demo.world_at 0)
           (1000 # 1)%Q (900 # 1)%Q); vm_compute; reflexivity.
Defined.

(** ** Publications of [record] *)

Section RecordFacts.
Import RecUtil.
Context `{PyFloat} `{!Collaborators}.

Lemma bind_run {A B : Type} (c : M A) (k : A -> M B) w :
  (x ← c; k x) w =
  match c w with
  | (Returned a, w1) => k a w1
  | (Raised e, w1) => (Raised e, w1)
  end.
Proof. reflexivity. Qed.

Lemma publishes_refl w : publishes w w [].
Proof. exists []. split; [now rewrite app_nil_r|reflexivity]. Qed.

Lemma publishes_trans w w1 w2 k1 k2 :
  publishes w w1 k1 -> publishes w1 w2 k2 -> publishes w w2 (k1 ++ k2).
Proof.
  intros (n1 & E1 & P1) (n2 & E2 & P2). exists (n1 ++ n2)%list. split.
  - now rewrite E2, E1, app_assoc.
  - unfold published in *. now rewrite omap_app, P1, P2.
Qed.

Lemma publishes_quiet w w1 w2 ks :
  publishes w w1 ks -> publishes w1 w2 [] -> publishes w w2 ks.
Proof.
  intros H1 H2. rewrite <- (app_nil_r ks). eapply publishes_trans; eassumption.
Qed.

Lemma publishes_emit w w1 ks e :
  publishes w w1 ks ->
  publishes w (snd (emit e w1)) (ks ++ from_option (fun k => [k]) [] (published_key e)).
Proof.
  intros H1. eapply publishes_trans; [exact H1|].
  exists [e]. split; [reflexivity|].
  unfold published. simpl. now destruct (published_key e).
Qed.

Lemma sleep_quiet d w : publishes w (sleep d w) [].
Proof.
  unfold sleep. destruct (d <? 0); [apply publishes_refl|].
  now exists [Sleep d].
Qed.

(** Reading the target changes nothing. *)
Lemma get_primary_target_reads array length delimiter w :
  snd (get_primary_target array length delimiter w) = w.
Proof.
  unfold get_primary_target, mbind, M_bind, bind, r_get, lift, mret, M_ret, ret.
  repeat case_match; simplify_eq; reflexivity.
Qed.

Lemma retry_loop_quiet (truthy : option target_data -> bool) k delay
    array length delimiter w :
  publishes w
    (snd (Util.retry_loop truthy sleep k delay
            (get_primary_target array length delimiter) w)) [].
Proof.
  revert w. induction k as [|k IH]; intros w; simpl; [apply publishes_refl|].
  pose proof (get_primary_target_reads array length delimiter w) as Hr.
  destruct (get_primary_target array length delimiter w) as [[v|e] w1];
    simpl in Hr; subst w1.
  - destruct (truthy v); [apply publishes_refl|].
    eapply publishes_quiet; [apply sleep_quiet|apply IH].
  - destruct (is_Exception e); [apply IH|apply publishes_refl].
Qed.

Lemma get_pktstart_quiet instances margin array w :
  publishes w (snd (get_pktstart instances margin array w)) [].
Proof.
  unfold get_pktstart, mbind, M_bind, bind, get_db, lift, utcnow, mret,
    M_ret, ret.
  repeat case_match; simplify_eq; try apply publishes_refl.
  unfold emit in *. simplify_eq. now eexists [_].
Qed.

Lemma try_except_reads {A : Type} (c : M A) :
  (forall w, snd (c w) = w) -> forall w, snd (try_except c w) = w.
Proof.
  intros Hc w. unfold try_except. specialize (Hc w).
  destruct (c w) as [[a|e] w1]; simpl in *; subst; [reflexivity|].
  now destruct (is_Exception e).
Qed.

Lemma centre_freq_reads array w : snd (centre_freq array w) = w.
Proof.
  apply try_except_reads. clear w. intros w.
  unfold mbind, M_bind, bind, r_get, lift, mret, M_ret, ret.
  repeat case_match; simplify_eq; reflexivity.
Qed.

Lemma bandwidth_reads array w : snd (bandwidth array w) = w.
Proof.
  apply try_except_reads. clear w. intros w.
  unfold mbind, M_bind, bind, r_get, lift, mret, M_ret, ret.
  repeat case_match; simplify_eq; reflexivity.
Qed.

(** [request_targets] raises and changes nothing. *)
Lemma request_targets_raises array ts target ra_deg dec_deg w :
  exists e, request_targets array ts target ra_deg dec_deg w = (Raised e, w).
Proof.
  unfold request_targets. rewrite bind_run.
  unfold obs_band at 1. rewrite bind_run. unfold lift at 1.
  destruct (last_char array) as [n|e]; [|now exists e].
  unfold r_get at 1. rewrite bind_run.
  pose proof (centre_freq_reads array w) as Hc.
  destruct (centre_freq array w) as [[cf|e] w1]; simpl in Hc; subst w1;
    [|now exists e].
  rewrite bind_run.
  pose proof (bandwidth_reads array w) as Hb.
  destruct (bandwidth array w) as [[bw|e] w1]; simpl in Hb; subst w1;
    [|now exists e].
  now exists TypeError.
Qed.

Lemma set_datadir_publishes array pktstart_str sb w :
  fst (set_datadir array pktstart_str [0; 1] sb w) = Returned tt /\
  publishes w (snd (set_datadir array pktstart_str [0; 1] sb w))
    ["DATADIR"; "DATADIR"].
Proof.
  split; [reflexivity|].
  eexists [_; _]. split.
  - unfold set_datadir, mbind, M_bind, bind, emit. simpl.
    rewrite <- app_assoc. reflexivity.
  - reflexivity.
Qed.

Lemma check_primary_time_reads array w :
  snd (check_primary_time array w) = w.
Proof.
  unfold check_primary_time, mbind, M_bind, bind, r_get, lift, mret, M_ret,
    ret.
  repeat case_match; simplify_eq; reflexivity.
Qed.

(** What is left to show at every exit of [record]. *)
Lemma record_exit w w' keys rest :
  publishes w w' keys ->
  session_keys = (keys ++ rest)%list ->
  rest = [] \/ "PKTSTART" ∉ keys ->
  exists keys,
    publishes w w' keys /\ keys `prefix_of` session_keys /\
    ("PKTSTART" ∈ keys -> keys = session_keys).
Proof.
  intros Hp Hk Hr. exists keys. split; [exact Hp|]. split.
  - now exists rest.
  - intros Hin. destruct Hr as [->|Hn]; [|contradiction].
    now rewrite app_nil_r in Hk.
Qed.

Lemma publishes_emit_run w w1 ks e :
  publishes w w1 ks ->
  exists w2, emit e w1 = (Returned tt, w2) /\
             publishes w w2
               (ks ++ from_option (fun k => [k]) [] (published_key e)).
Proof.
  intros Hq. exists (snd (emit e w1)). split; [reflexivity|].
  now apply publishes_emit.
Qed.

(** One event of the run, the record of what is published so far
    kept in [Hq]. *)
Ltac step_emit Hq :=
  rewrite bind_run;
  unfold set_group_key, annotate, alert;
  match goal with
  | |- context [emit ?e ?w1] =>
      let w2 := fresh "w" in
      let E := fresh "E" in
      destruct (publishes_emit_run _ _ _ e Hq) as (w2 & E & Hq');
      rewrite E; clear E Hq; rename Hq' into Hq;
      cbn [from_option published_key app] in Hq
  end.

Ltac exit_run Hq :=
  eapply record_exit;
  [exact Hq | reflexivity |
   first [left; reflexivity
         | right; apply (bool_decide_unpack _); vm_compute; exact I]].

(** C5. On every run of [record] the keys sent to the gateway, in the
    order sent, are an initial part of DWELL, DATADIR, DATADIR,
    SRC_NAME, RA, RA_STR, DEC, DEC_STR, OBSID, PKTSTART.  So a run
    that publishes PKTSTART has published all the others before it,
    SRC_NAME, RA, DEC and OBSID in that order among them, and
    publishes nothing after it. *)
Theorem record_publishes_pktstart_last (array : string)
    (instances : list string) (w : world) :
  exists keys,
    publishes w (snd (record array instances w)) keys /\
    keys `prefix_of` session_keys /\
    ("PKTSTART" ∈ keys -> keys = session_keys).
Proof.
  unfold record. rewrite bind_run. unfold Util.retry.
  match goal with
  | |- context [Util.retry_loop ?t sleep ?k ?d ?f w] =>
      pose proof (retry_loop_quiet t k d array 16 "|" w) as Hq;
      destruct (Util.retry_loop t sleep k d f w) as [[td|e] w1]
  end; simpl in Hq; [|exit_run Hq].
  destruct td as [[td|]|]; try exit_run Hq.
  step_emit Hq. step_emit Hq.
  rewrite bind_run.
  pose proof (get_pktstart_quiet instances PKTIDX_MARGIN array w2) as Hp.
  destruct (get_pktstart instances PKTIDX_MARGIN array w2) as [[pd|e] w3];
    simpl in Hp; pose proof (publishes_quiet _ _ _ _ Hq Hp) as Hq3;
    [|exit_run Hq3].
  destruct pd as [pd|]; [|exit_run Hq3].
  clear Hq Hp. rewrite bind_run.
  pose proof (centre_freq_reads array w3) as Hc.
  destruct (centre_freq array w3) as [[fc|e] w4]; simpl in Hc; subst w4;
    [|exit_run Hq3].
  destruct fc as [fc|]; [|exit_run Hq3].
  destruct (negb (PyStr.truthy fc)); [exit_run Hq3|].
  rewrite bind_run. unfold get_db at 1. rewrite bind_run.
  match goal with
  | |- context [set_datadir ?a ?p ?l ?sb w3] =>
      destruct (set_datadir_publishes a p sb w3) as [Ed Hd];
      destruct (set_datadir a p l sb w3) as [o w4]
  end.
  simpl in Ed, Hd. subst o.
  pose proof (publishes_trans _ _ _ _ _ Hq3 Hd) as Hq. clear Hq3 Hd.
  cbn [app] in Hq.
  step_emit Hq.
  rewrite bind_run. unfold lift at 1.
  destruct (Util.ra_degrees (ra td)) as [ra_d|e]; [|exit_run Hq].
  step_emit Hq. step_emit Hq.
  rewrite bind_run. unfold lift at 1.
  destruct (Util.dec_degrees (dec td)) as [dec_d|e]; [|exit_run Hq].
  step_emit Hq. step_emit Hq. step_emit Hq. step_emit Hq. step_emit Hq.
  rewrite bind_run.
  match goal with
  | |- context [request_targets ?a ?t ?n ?x ?y ?w'] =>
      destruct (request_targets_raises a t n x y w') as [e ->]
  end.
  exit_run Hq.
Qed.
End RecordFacts.

Lemma record_publishes_pktstart_last_witness :
  RecUtil.published
    (RecUtil.trace
       (snd (@RecUtil.record FloatLaws.exact Demo.collaborators "array1"
               Demo.instances (Demo.world_at 2248000000)))) =
  ["DWELL"; "DATADIR"; "DATADIR"; "SRC_NAME"; "RA"; "RA_STR"; "DEC";
   "DEC_STR"; "OBSID"; "PKTSTART"].
Proof.
  destruct (@record_publishes_pktstart_last FloatLaws.exact
              Demo.collaborators "array1" Demo.instances
              (Demo.world_at 2248000000)) as (keys & (new & Ht & Hn) & _ & Hall).
  change (RecUtil.trace (Demo.world_at 2248000000) ++ new)%list with new in Ht.
  rewrite Ht, Hn. apply Hall.
  rewrite <- Hn, <- Ht. vm_compute.
  do 9 apply list_elem_of_further. apply list_elem_of_here.
Defined.

(** ** Processing returns in the coordinator's loop *)

Section LoopFacts.
Import Coordinator.
Context {message machine heap : Type}.
Variable parse_msg : message -> option (list string).
Variable handle_event : machine -> @payload message -> heap -> heap.




Lemma listen_app self pre post (st : @state message machine heap) st1 :
  listen parse_msg handle_event self pre st = (Returned tt, st1) ->
  listen parse_msg handle_event self (pre ++ post) st =
  listen parse_msg handle_event self post st1.
Proof.
  revert st. induction pre as [|m pre IH]; intros st E; simpl in *.
  - now inversion E.
  - destruct (on_message parse_msg handle_event self m st) as [[u|e] st'];
      [now apply IH|discriminate].
Qed.

End LoopFacts.


(** ** What the processing step removes *)

Section ProcFacts.
Import Proc.
Context {host_state : Type} `{!@System host_state}.

Lemma pbind_run {A B : Type} (c : @P host_state A) (k : A -> @P host_state B)
    (s : @state host_state) :
  (@mbind (@P host_state) P_bind A B k c) s =
  match c s return outcome B * @state host_state with
  | (Returned a, s1) => k a s1
  | (Raised e, s1) => (Raised e, s1)
  end.
Proof. reflexivity. Qed.

Lemma sys_actions {A : Type} (f : host_state -> outcome A * host_state)
    (s : @state host_state) :
  actions (snd (sys f s)) = actions s.
Proof. unfold sys. now destruct (f (os s)). Qed.

Lemma succeeds_actions (c : @P host_state unit) s :
  actions (snd (succeeds c s)) = actions (snd (c s)).
Proof.
  unfold succeeds. destruct (c s) as [[u|e] s1]; [reflexivity|].
  now destruct (is_Exception e).
Qed.

Lemma make_outputdir_actions outputdir s :
  actions (snd (make_outputdir outputdir s)) = actions s.
Proof. unfold make_outputdir. now rewrite succeeds_actions, sys_actions. Qed.

Lemma run_seticore_actions bfrdir inputdir tsdir partition s :
  actions (snd (run_seticore bfrdir inputdir tsdir partition s)) = actions s.
Proof.
  unfold run_seticore. rewrite pbind_run.
  pose proof (make_outputdir_actions
                ("/" +:+ partition +:+ "/data/" +:+ tsdir +:+ "/seticore_search")
                s) as H1.
  destruct (make_outputdir _ s) as [[ok|e] s1]; simpl in H1; [|exact H1].
  destruct (negb ok); [exact H1|].
  rewrite pbind_run. cbv beta iota. rewrite pbind_run.
  assert (H2 : forall s2 o,
             (if get_n_proc (os s1) mod 10 =? 0 return @P host_state bool
              then make_outputdir
                     ("/" +:+ partition +:+ "/data/" +:+ tsdir +:+
                      "/seticore_beamformer")
              else mret true) s1 = (o, s2) -> actions s2 = actions s).
  { intros s2 o E. destruct (get_n_proc (os s1) mod 10 =? 0).
    - pose proof (make_outputdir_actions
                    ("/" +:+ partition +:+ "/data/" +:+ tsdir +:+
                     "/seticore_beamformer") s1) as H3.
      rewrite E in H3. simpl in H3. congruence.
    - inversion E; subst. exact H1. }
  match goal with
  | |- context [match ?c s1 with _ => _ end] => destruct (c s1) as [[ok5|e] s2] eqn:E
  end; specialize (H2 _ _ eq_refl); [|exact H2].
  destruct (negb ok5); [exact H2|].
  rewrite pbind_run.
  match goal with
  | |- context [sys ?f s2] =>
      pose proof (sys_actions f s2) as H4; destruct (sys f s2) as [[u|e] s3]
  end; simpl in H4; [|simpl; congruence].
  rewrite sys_actions. congruence.
Qed.

Lemma run_all_actions todo results bound s :
  actions (snd (run_all todo results bound s)) = actions s.
Proof.
  revert results bound s. induction todo as [|d rest IH]; intros results bound s;
    [reflexivity|].
  simpl. rewrite pbind_run. cbv beta iota.
  destruct (negb (path_exists d (os s))); [apply IH|].
  rewrite pbind_run.
  pose proof (run_seticore_actions BFRDIR d (timestamped_dir_from_filename d)
                PARTITION s) as H1.
  destruct (run_seticore _ _ _ _ s) as [[res|e] s1]; simpl in H1; [|exact H1].
  now rewrite IH.
Qed.

(** [rm_datadir] calls [shutil.rmtree] at most once, and only for a
    datadir under "buf0ro". *)
Lemma rm_datadir_actions d n (s : @state host_state) :
  exists new,
    actions (snd (rm_datadir d n s)) = (actions s ++ new)%list /\
    (new = [] \/ exists p, new = [Rmtree d p] /\ clears n d p).
Proof.
  unfold rm_datadir. rewrite pbind_run. unfold plift at 1.
  destruct (PyStr.split "/" d) as [cs|e] eqn:Es;
    [|exists []; split; [now rewrite app_nil_r|now left]].
  rewrite pbind_run. unfold plift at 1, PyStr.index at 1.
  destruct (cs !! 1%nat) as [c1|] eqn:E1; simpl;
    [|exists []; split; [now rewrite app_nil_r|now left]].
  destruct (String.eqb c1 "buf0ro") eqn:Eb; simpl;
    [|exists []; split; [now rewrite app_nil_r|now left]].
  apply String.eqb_eq in Eb. subst c1.
  rewrite pbind_run. unfold plift at 1, PyStr.index at 1.
  destruct (cs !! 2%nat) as [id|] eqn:E2; simpl;
    [|exists []; split; [now rewrite app_nil_r|now left]].
  rewrite succeeds_actions, pbind_run. unfold act at 1.
  rewrite sys_actions. simpl.
  eexists. split; [reflexivity|]. right. eexists. split; [reflexivity|].
  exists cs, id. rewrite Es. auto.
Qed.

Lemma rm_datadir_refuses d n (s : @state host_state) cs c1 :
  PyStr.split "/" d = Returned cs -> cs !! 1%nat = Some c1 ->
  c1 <> "buf0ro" -> rm_datadir d n s = (Returned false, s).
Proof.
  intros Es E1 Hne. unfold rm_datadir. rewrite pbind_run. unfold plift at 1.
  rewrite Es. rewrite pbind_run. unfold plift at 1, PyStr.index at 1.
  rewrite E1. simpl.
  destruct (String.eqb c1 "buf0ro") eqn:Eb; [|reflexivity].
  now apply String.eqb_eq in Eb.
Qed.


End ProcFacts.



(** And a directory that the preserved list names by its path, while
    the unprocessed list names the same recording by its read-only
    mount, is removed. *)
Lemma process_removes_path_on_preserved_list :
  Proc.actions
    (snd (@Proc.process Demo.host
            (Demo.shelf ["/buf0ro/X/y"] ["/buf0/X"]) "blpn0" "0"
            {| Proc.os := {| Demo.dirs := ["/buf0ro/X/y"; "/buf0/X"];
                             Demo.n_proc := 1 |};
               Proc.actions := [] |})) =
  [Proc.Rmtree "/buf0ro/X/y" "/buf0/X";
   Proc.Published "proc_result" "RETURN:f{host}/{n}:0"].
Proof. vm_compute. reflexivity. Qed.

(** ** The time of the last calibration *)

Section CalsFacts.
Import RecUtil.
Context `{PyFloat}.

(** One run of [get_cals]: the stored time is left as it was, or the
    run went through both comparisons and stored the phase-up time. *)
Lemma get_cals_step (array : string) (w : world) :
  keeps_last_cal array (tel w) ->
  tel (snd (get_cals array w)) = tel w /\
  (kv (db (snd (get_cals array w))) !! (array +:+ ":last-cal")
     = kv (db w) !! (array +:+ ":last-cal") \/
   exists cfg cur last,
     ts_or_zero (kv (db w) !! (array +:+ ":last-config")) = Returned cfg /\
     tel_phaseup (tel w) = Returned cur /\
     stored_last_cal array w = Returned last /\
     flt cur cfg = false /\ flt last cur = true /\
     kv (db (snd (get_cals array w))) !! (array +:+ ":last-cal")
       = Some (str_of_float cur) /\
     fst (get_cals array w) = Returned (Some "success")).
Proof.
  intros Hk.
  unfold get_cals, stored_last_cal, mbind, M_bind, bind, r_get, lift,
    get_phaseup_time, query_telstate, r_set, try_except, new_telstate, mret,
    M_ret, ret.
  repeat case_match; simplify_eq; simpl; try (split; [reflexivity|now left]).
  - split; [reflexivity|]. right.
    do 3 eexists. repeat (split; [eassumption|]).
    split; [apply lookup_insert_eq|reflexivity].
  - split; [reflexivity|]. left.
    match goal with
    | Hq : tel_query _ _ _ = _ |- _ =>
        match type of Hq with tel_query _ _ ?r = _ => specialize (Hk r) end;
        rewrite Hq in Hk; exact Hk
    end.
Qed.

Lemma stored_after_write (Hord : FloatLaws.ordered) array (w : world) cur :
  kv (db w) !! (array +:+ ":last-cal") = Some (str_of_float cur) ->
  stored_last_cal array w = Returned cur.
Proof.
  intros E. unfold stored_last_cal, ts_or_zero. rewrite E.
  rewrite (FloatLaws.repr_truthy Hord). unfold Util.to_float.
  now rewrite (FloatLaws.repr_float Hord).
Qed.

(** C4. A run of [get_cals] changes the stored last-cal only when the
    phase-up time is not less than the last-config time and the stored
    last-cal is less than the phase-up time, and what it then stores is
    the phase-up time; so over successive runs, whatever phase-up
    times the telescope state reports, the stored last-cal read as a
    float stays equal or moves to a greater value. *)
Theorem get_cals_last_cal_monotone (array : string) :
  FloatLaws.ordered ->
  (forall w, keeps_last_cal array (tel w) ->
     kv (db (snd (get_cals array w))) !! (array +:+ ":last-cal")
       = kv (db w) !! (array +:+ ":last-cal") \/
     exists cfg cur last,
       ts_or_zero (kv (db w) !! (array +:+ ":last-config")) = Returned cfg /\
       tel_phaseup (tel w) = Returned cur /\
       stored_last_cal array w = Returned last /\
       flt cur cfg = false /\ flt last cur = true /\
       kv (db (snd (get_cals array w))) !! (array +:+ ":last-cal")
         = Some (str_of_float cur) /\
       stored_last_cal array (snd (get_cals array w)) = Returned cur) /\
  (forall tels w last,
     Forall (keeps_last_cal array) tels ->
     stored_last_cal array w = Returned last ->
     exists last',
       stored_last_cal array (get_cals_each array tels w) = Returned last' /\
       (last' = last \/ flt last last' = true)).
Proof.
  intros Hord. split.
  - intros w Hk. destruct (get_cals_step array w Hk) as [_ [Hsame|Hw]];
      [now left|right].
    destruct Hw as (cfg & cur & last & H1 & H2 & H3 & H4 & H5 & H6 & _).
    exists cfg, cur, last. repeat (split; [assumption|]).
    now apply stored_after_write.
  - induction tels as [|t tels IH]; intros w last Hall Hlast; simpl.
    + exists last. split; [exact Hlast|now left].
    + apply Forall_cons in Hall as [Ht Hall].
      destruct (get_cals_step array (with_tel t w) Ht) as [_ [Hsame|Hw]].
      * destruct (IH (snd (get_cals array (with_tel t w))) last Hall)
          as (last' & E & Hrel); [|now exists last'].
        unfold stored_last_cal in *. now rewrite Hsame.
      * destruct Hw as (cfg & cur & last0 & _ & _ & H3 & _ & H5 & H6 & _).
        assert (last0 = last) as -> by (unfold stored_last_cal in *; simpl in H3; congruence).
        destruct (IH (snd (get_cals array (with_tel t w))) cur Hall)
          as (last' & E & Hrel); [now apply stored_after_write|].
        exists last'. split; [exact E|]. right.
        destruct Hrel as [->|Hlt]; [exact H5|].
        exact (FloatLaws.flt_trans Hord _ _ _ H5 Hlt).
Qed.
End CalsFacts.

Lemma whole_ordered : @FloatLaws.ordered FloatLaws.whole.
Proof.
  split.
  - intros x. apply Z.ltb_irrefl.
  - intros x y z Hxy Hyz. apply Z.ltb_lt in Hxy, Hyz. apply Z.ltb_lt.
    cbn in *. lia.
  - intros x. cbn. destruct x as [|p|p]; cbn.
    + reflexivity.
    + destruct (Pos.to_uint p) eqn:E; try reflexivity.
      now apply DecimalPos.Unsigned.to_uint_nonnil in E.
    + reflexivity.
  - intros x. cbn. rewrite NilEmpty.isi. cbn. f_equal. apply DecimalZ.of_to.
Qed.

Lemma get_cals_last_cal_monotone_witness :
  exists last',
    @RecUtil.stored_last_cal FloatLaws.whole "array1"
      (RecUtil.get_cals_each "array1"
         (List.map Demo.cal_telstate [200; 120; 300; 90]) Demo.cal_world)
      = Returned last' /\
    (last' = 150 \/ @flt FloatLaws.whole 150 last' = true).
Proof.
  apply (proj2 (@get_cals_last_cal_monotone FloatLaws.whole "array1"
                  whole_ordered)).
  - repeat constructor; intros r; cbn; now rewrite lookup_insert_ne.
  - reflexivity.
Defined.


(** ** Degrees from sexagesimal strings *)

Section DegreesFacts.
Context `{PyFloat}.
Hypothesis laws : FloatLaws.rounding.

Local Open Scope Q_scope.

Lemma normal_pos q : 1 # 1000 <= q -> q <= 10000 -> FloatLaws.normal q.
Proof.
  intros Hlo Hhi. right. rewrite Qabs_pos by lra. split.
  - apply Qle_trans with (1 # 1000); [|exact Hlo]. now vm_compute.
  - apply Qle_trans with 10000; [exact Hhi|]. now vm_compute.
Qed.

Lemma normal_neg q : -10000 <= q -> q <= - (1 # 1000) -> FloatLaws.normal q.
Proof.
  intros Hlo Hhi. right. rewrite Qabs_neg by lra. split.
  - apply Qle_trans with (1 # 1000); [now vm_compute|lra].
  - apply Qle_trans with 10000; [lra|now vm_compute].
Qed.

Lemma near_bounds x q lo hi :
  FloatLaws.near x q -> -10000 <= lo -> hi <= 10000 -> lo <= q -> q <= hi ->
  lo - FloatLaws.slack <= F2Q x /\ F2Q x <= hi + FloatLaws.slack.
Proof.
  unfold FloatLaws.near. intros Hn Hlo Hhi Hq1 Hq2.
  assert (Ha : Qabs q <= 10000) by (apply Qabs_Qle_condition; lra).
  assert (He : FloatLaws.eps * Qabs q <= FloatLaws.slack).
  { apply Qle_trans with (FloatLaws.eps * 10000).
    - apply Qmult_le_l; [reflexivity|exact Ha].
    - now vm_compute. }
  pose proof (Qle_trans _ _ _ Hn He) as Hd.
  apply Qabs_Qle_condition in Hd. unfold FloatLaws.slack in *. lra.
Qed.

Lemma const_bounds q :
  -10000 <= q -> q <= 10000 -> (q <= - (1 # 1000) \/ 1 # 1000 <= q) ->
  q - FloatLaws.slack <= F2Q (F_of_Q q) /\ F2Q (F_of_Q q) <= q + FloatLaws.slack.
Proof.
  intros Hlo Hhi Hn.
  apply (near_bounds _ q); try lra.
  apply (FloatLaws.round_of_Q laws).
  destruct Hn; [apply normal_neg|apply normal_pos]; lra.
Qed.

Lemma add_bounds x y a b c d :
  a <= F2Q x -> F2Q x <= b -> c <= F2Q y -> F2Q y <= d ->
  -10000 <= a + c -> b + d <= 10000 ->
  (b + d <= - (1 # 1000) \/ 1 # 1000 <= a + c) ->
  a + c - FloatLaws.slack <= F2Q (fadd x y) /\
  F2Q (fadd x y) <= b + d + FloatLaws.slack.
Proof.
  intros. apply (near_bounds _ (F2Q x + F2Q y)); try lra.
  apply (FloatLaws.round_add laws).
  destruct H6; [apply normal_neg|apply normal_pos]; lra.
Qed.

Lemma sub_bounds x y a b c d :
  a <= F2Q x -> F2Q x <= b -> c <= F2Q y -> F2Q y <= d ->
  -10000 <= a - d -> b - c <= 10000 ->
  (b - c <= - (1 # 1000) \/ 1 # 1000 <= a - d) ->
  a - d - FloatLaws.slack <= F2Q (fsub x y) /\
  F2Q (fsub x y) <= b - c + FloatLaws.slack.
Proof.
  intros. apply (near_bounds _ (F2Q x - F2Q y)); try lra.
  apply (FloatLaws.round_sub laws).
  destruct H6; [apply normal_neg|apply normal_pos]; lra.
Qed.

Lemma mul_bounds x y a b c d :
  a <= F2Q x -> F2Q x <= b -> c <= F2Q y -> F2Q y <= d ->
  0 <= a -> 0 <= c -> 1 # 1000 <= a * c -> b * d <= 10000 ->
  a * c - FloatLaws.slack <= F2Q (fmul x y) /\
  F2Q (fmul x y) <= b * d + FloatLaws.slack.
Proof.
  intros.
  assert (a * c <= F2Q x * F2Q y) by nra.
  assert (F2Q x * F2Q y <= b * d) by nra.
  apply (near_bounds _ (F2Q x * F2Q y)); try lra.
  apply (FloatLaws.round_mul laws). apply normal_pos; lra.
Qed.

Lemma div_bounds x y a b c d lo hi :
  a <= F2Q x -> F2Q x <= b -> c <= F2Q y -> F2Q y <= d ->
  0 <= a -> 0 < c -> 0 <= lo -> lo * d <= a -> b <= hi * c ->
  1 # 1000 <= lo -> hi <= 10000 ->
  lo - FloatLaws.slack <= F2Q (fdiv x y) /\
  F2Q (fdiv x y) <= hi + FloatLaws.slack.
Proof.
  intros.
  assert (Hy : 0 < F2Q y) by lra.
  assert (lo <= F2Q x / F2Q y) by (apply Qle_shift_div_l; [exact Hy|nra]).
  assert (F2Q x / F2Q y <= hi) by (apply Qle_shift_div_r; [exact Hy|nra]).
  apply (near_bounds _ (F2Q x / F2Q y)); try lra.
  apply (FloatLaws.round_div laws); [lra|apply normal_pos; lra].
Qed.

Lemma literal_bounds (s : string) (q : Q) :
  FloatLaws.decimal_value s = Some q -> 1 # 1000 <= q -> q <= 10000 ->
  exists x, Util.to_float s = Returned x /\
            q - FloatLaws.slack <= F2Q x /\ F2Q x <= q + FloatLaws.slack.
Proof.
  intros Ed Hlo Hhi.
  destruct (FloatLaws.round_str laws s q Ed (normal_pos q Hlo Hhi))
    as (x & Ex & Hx).
  exists x. split; [unfold Util.to_float; now rewrite Ex|].
  apply (near_bounds _ q); try lra. exact Hx.
Qed.

(** C8. With floats that round correctly, [ra_degrees] of "9:18:05.28"
    is 139.522 to within 1e-3, which is further than 1e-3 from
    139.7720, and [dec_degrees] of "-12:05:48.9" is -12.09692 to within
    1e-3. *)
Theorem degrees_of_hydra_a :
  (exists x, Util.ra_degrees "9:18:05.28" = Returned x /\
             Qabs (F2Q x - (139522 # 1000)) <= 1 # 1000 /\
             1 # 1000 < Qabs (F2Q x - (139772 # 1000))) /\
  (exists y, Util.dec_degrees "-12:05:48.9" = Returned y /\
             Qabs (F2Q y - (-1209692 # 100000)) <= 1 # 1000).
Proof.
  split.
  - destruct (literal_bounds "05.28" (528 # 100) eq_refl) as (s & Es & Hs1 & Hs2);
      [lra|lra|].
    unfold Util.ra_degrees.
    change (PyStr.split ":" "9:18:05.28") with (Returned ["9"; "18"; "05.28"]).
    cbn [mbind outcome_bind Out.bind PyStr.index Out.of_option lookup list_lookup].
    change (PyStr.to_int "9") with (Returned 9%Z).
    change (PyStr.to_int "18") with (Returned 18%Z).
    rewrite Es.
    cbn [mbind outcome_bind Out.bind mret outcome_ret].
    eexists. split; [reflexivity|].
    unfold F_of_Z. change (inject_Z (9 * 15)) with (135 # 1).
    destruct (const_bounds (135 # 1)) as [Ha1 Ha2]; [lra|lra|right; lra|].
    destruct (const_bounds (inject_Z 18)) as [Hb1 Hb2];
      [unfold inject_Z; lra|unfold inject_Z; lra|right; unfold inject_Z; lra|].
    destruct (const_bounds (1 # 4)) as [Hc1 Hc2]; [lra|lra|right; lra|].
    destruct (const_bounds (inject_Z 15)) as [Hf1 Hf2];
      [unfold inject_Z; lra|unfold inject_Z; lra|right; unfold inject_Z; lra|].
    destruct (const_bounds (inject_Z 3600)) as [Hh1 Hh2];
      [unfold inject_Z; lra|unfold inject_Z; lra|right; unfold inject_Z; lra|].
    unfold inject_Z, FloatLaws.slack in *.
    destruct (mul_bounds _ _ _ _ _ _ Hb1 Hb2 Hc1 Hc2) as [Hd1 Hd2];
      [lra|lra|lra|lra|].
    destruct (add_bounds _ _ _ _ _ _ Ha1 Ha2 Hd1 Hd2) as [He1 He2];
      [unfold FloatLaws.slack; lra|unfold FloatLaws.slack; lra
      |right; unfold FloatLaws.slack; lra|].
    destruct (mul_bounds _ _ _ _ _ _ Hs1 Hs2 Hf1 Hf2) as [Hg1 Hg2];
      [lra|lra|lra|lra|].
    destruct (div_bounds _ _ _ _ _ _ (219 # 10000) (221 # 10000)
                Hg1 Hg2 Hh1 Hh2) as [Hi1 Hi2];
      try (unfold FloatLaws.slack; lra).
    destruct (add_bounds _ _ _ _ _ _ He1 He2 Hi1 Hi2) as [Hr1 Hr2];
      [unfold FloatLaws.slack; lra|unfold FloatLaws.slack; lra
      |right; unfold FloatLaws.slack; lra|].
    unfold FloatLaws.slack in *.
    split.
    + apply Qabs_Qle_condition. lra.
    + rewrite Qabs_neg by lra. lra.
  - destruct (literal_bounds "48.9" (489 # 10) eq_refl) as (s & Es & Hs1 & Hs2);
      [lra|lra|].
    unfold Util.dec_degrees.
    change (PyStr.split ":" "-12:05:48.9") with (Returned ["-12"; "05"; "48.9"]).
    cbn [mbind outcome_bind Out.bind PyStr.index Out.of_option lookup list_lookup].
    change (PyStr.to_int "-12") with (Returned (-12)%Z).
    change (PyStr.to_int "05") with (Returned 5%Z).
    rewrite Es.
    cbn [mbind outcome_bind Out.bind mret outcome_ret Util.first_char_is].
    change (Ascii.eqb "-" "-") with true. cbv iota.
    eexists. split; [reflexivity|].
    unfold F_of_Z.
    destruct (const_bounds (inject_Z (-12))) as [Ha1 Ha2];
      [unfold inject_Z; lra|unfold inject_Z; lra|left; unfold inject_Z; lra|].
    destruct (const_bounds (inject_Z 5)) as [Hb1 Hb2];
      [unfold inject_Z; lra|unfold inject_Z; lra|right; unfold inject_Z; lra|].
    destruct (const_bounds (inject_Z 60)) as [Hc1 Hc2];
      [unfold inject_Z; lra|unfold inject_Z; lra|right; unfold inject_Z; lra|].
    destruct (const_bounds (inject_Z 3600)) as [Hh1 Hh2];
      [unfold inject_Z; lra|unfold inject_Z; lra|right; unfold inject_Z; lra|].
    unfold inject_Z, FloatLaws.slack in *.
    destruct (div_bounds _ _ _ _ _ _ (83 # 1000) (84 # 1000)
                Hb1 Hb2 Hc1 Hc2) as [Hd1 Hd2];
      try (unfold FloatLaws.slack; lra).
    destruct (sub_bounds _ _ _ _ _ _ Ha1 Ha2 Hd1 Hd2) as [He1 He2];
      [unfold FloatLaws.slack; lra|unfold FloatLaws.slack; lra
      |left; unfold FloatLaws.slack; lra|].
    destruct (div_bounds _ _ _ _ _ _ (135 # 10000) (136 # 10000)
                Hs1 Hs2 Hh1 Hh2) as [Hi1 Hi2];
      try (unfold FloatLaws.slack; lra).
    destruct (sub_bounds _ _ _ _ _ _ He1 He2 Hi1 Hi2) as [Hr1 Hr2];
      [unfold FloatLaws.slack; lra|unfold FloatLaws.slack; lra
      |left; unfold FloatLaws.slack; lra|].
    unfold FloatLaws.slack in *.
    apply Qabs_Qle_condition. lra.
Qed.
End DegreesFacts.

Lemma exact_rounding : @FloatLaws.rounding FloatLaws.exact.
Proof.
  assert (Hnear : forall q : Q, @FloatLaws.near FloatLaws.exact q q).
  { intros q. change (Qabs (q - q) <= FloatLaws.eps * Qabs q)%Q.
    assert (He : (0 <= FloatLaws.eps * Qabs q)%Q)
      by (apply Qmult_le_0_compat; [now vm_compute|apply Qabs_nonneg]).
    set (e := (FloatLaws.eps * Qabs q)%Q) in *.
    apply Qabs_Qle_condition. lra. }
  split; intros; try apply Hnear.
  exists q. split; [assumption|apply Hnear].
Qed.

Lemma degrees_of_hydra_a_witness :
  exists x : Q,
    @Util.ra_degrees FloatLaws.exact "9:18:05.28" = Returned x /\
    (Qabs (x - (139522 # 1000)) <= 1 # 1000)%Q.
Proof.
  destruct (@degrees_of_hydra_a FloatLaws.exact exact_rounding)
    as [(x & Ex & Hx & _) _].
  exists x. split; [exact Ex|exact Hx].
Defined.

Lemma ra_degrees_of_hydra_a_far_from_139_772 :
  exists x : Q,
    @Util.ra_degrees FloatLaws.exact "9:18:05.28" = Returned x /\
    (1 # 1000 < Qabs (x - (139772 # 1000)))%Q.
Proof.
  eexists. split; [vm_compute; reflexivity|]. vm_compute. reflexivity.
Qed.

(** * Further properties *)

(** ** How [record] ends *)

Section RecordOutcome.
Import RecUtil.
Context `{PyFloat} `{!Collaborators}.

Ltac step_emit Hq :=
  rewrite bind_run;
  unfold set_group_key, annotate, alert;
  match goal with
  | |- context [emit ?e ?w1] =>
      let w2 := fresh "w" in
      let E := fresh "E" in
      destruct (publishes_emit_run _ _ _ e Hq) as (w2 & E & Hq');
      rewrite E; clear E Hq; rename Hq' into Hq;
      cbn [from_option published_key app] in Hq
  end.

Ltac exit_none Hq :=
  eexists; split;
  [exact Hq
  |left; split;
   [reflexivity|apply (bool_decide_unpack _); vm_compute; exact I]].

Ltac exit_raise Hq :=
  eexists; split; [exact Hq|right; eexists; reflexivity].

(** X1. [record] never returns the set of instances.  A run returns [None]
    before PKTSTART is published, or it ends in an exception: once it
    has published PKTSTART it goes on to [request_targets], which adds
    the [str] of [centre_freq] to a [float] and raises. *)
Theorem record_never_returns_instances (array : string)
    (instances : list string) (w : world) :
  exists keys,
    publishes w (snd (record array instances w)) keys /\
    ((fst (record array instances w) = Returned None /\ "PKTSTART" ∉ keys) \/
     exists e, fst (record array instances w) = Raised e).
Proof.
  unfold record. rewrite !bind_run. unfold Util.retry.
  match goal with
  | |- context [Util.retry_loop ?t sleep ?k ?d ?f w] =>
      pose proof (retry_loop_quiet t k d array 16 "|" w) as Hq;
      destruct (Util.retry_loop t sleep k d f w) as [[td|e] w1]
  end; simpl in Hq; [|exit_raise Hq].
  destruct td as [[td|]|]; try exit_none Hq.
  step_emit Hq. step_emit Hq.
  rewrite !bind_run.
  pose proof (get_pktstart_quiet instances PKTIDX_MARGIN array w2) as Hp.
  destruct (get_pktstart instances PKTIDX_MARGIN array w2) as [[pd|e] w3];
    simpl in Hp; pose proof (publishes_quiet _ _ _ _ Hq Hp) as Hq3;
    [|exit_raise Hq3].
  destruct pd as [pd|]; [|exit_none Hq3].
  clear Hq Hp. rewrite !bind_run.
  pose proof (centre_freq_reads array w3) as Hc.
  destruct (centre_freq array w3) as [[fc|e] w4]; simpl in Hc; subst w4;
    [|exit_raise Hq3].
  destruct fc as [fc|]; [|exit_none Hq3].
  destruct (negb (PyStr.truthy fc)); [exit_none Hq3|].
  rewrite !bind_run. unfold get_db. rewrite !bind_run.
  match goal with
  | |- context [set_datadir ?a ?p ?l ?sb w3] =>
      destruct (set_datadir_publishes a p sb w3) as [Ed Hd];
      destruct (set_datadir a p l sb w3) as [o w4]
  end.
  simpl in Ed, Hd. subst o.
  pose proof (publishes_trans _ _ _ _ _ Hq3 Hd) as Hq. clear Hq3 Hd.
  cbn [app] in Hq.
  step_emit Hq.
  rewrite !bind_run. unfold lift.
  destruct (Util.ra_degrees (ra td)) as [ra_d|e]; [|exit_raise Hq].
  step_emit Hq. step_emit Hq.
  rewrite !bind_run.
  destruct (Util.dec_degrees (dec td)) as [dec_d|e]; [|exit_raise Hq].
  step_emit Hq. step_emit Hq. step_emit Hq. step_emit Hq. step_emit Hq.
  rewrite !bind_run.
  match goal with
  | |- context [request_targets ?a ?t ?n ?x ?y ?w'] =>
      destruct (request_targets_raises a t n x y w') as [e ->]
  end.
  exit_raise Hq.
Qed.
End RecordOutcome.

(** ** What [retry] hands back *)

Section RetryOutcome.
Context {S D V : Type}.
Variable truthy : V -> bool.
Variable sleep : D -> S -> S.
Variable delay : D.
Variable function : S -> outcome V * S.

(** X2. Whatever [retry] returns came out of a call of [function]: a value
    it returns is truthy and is what some call returned, in the state
    that call left; an exception it lets through is one that a call
    raised and that is no instance of [Exception]. *)
Theorem retry_result_sound (retries : Z) (s : S) :
  match Util.retry truthy sleep retries delay function s with
  | (Returned (Some v), s') =>
      truthy v = true /\ exists s0, function s0 = (Returned v, s')
  | (Returned None, _) => True
  | (Raised e, s') =>
      is_Exception e = false /\ exists s0, function s0 = (Raised e, s')
  end.
Proof.
  unfold Util.retry. generalize (Z.to_nat retries) as k. intros k. revert s.
  induction k as [|k IH]; intros s; simpl; [exact I|].
  destruct (function s) as [[v|e] s1] eqn:Ef.
  - destruct (truthy v) eqn:Ev; [|apply IH].
    split; [exact Ev|now exists s].
  - destruct (is_Exception e) eqn:Ee; [apply IH|].
    split; [exact Ee|now exists s].
Qed.

(** X3. [time.sleep] is reached only after a falsy result: while every call
    raises, the attempts follow one another without any delay. *)
Theorem retry_no_delay_after_exception :
  (forall s, exists e s', function s = (Raised e, s') /\
                          is_Exception e = true) ->
  forall retries s,
    Util.retry truthy sleep retries delay function s =
    Util.retry truthy (fun _ s0 => s0) retries delay function s.
Proof.
  intros Hall retries. unfold Util.retry.
  generalize (Z.to_nat retries) as k. intros k.
  induction k as [|k IH]; intros s; simpl; [reflexivity|].
  destruct (Hall s) as (e & s' & -> & ->). apply IH.
Qed.
End RetryOutcome.

Lemma retry_no_delay_after_exception_witness :
  Util.retry (fun v : Z => negb (v =? 0)) (fun (d : Z) (s : Z) => s + d) 5 5
    (fun s : Z => (Raised (OtherException "ConnectionError"), s)) 0 =
  Util.retry (fun v : Z => negb (v =? 0)) (fun (_ : Z) (s : Z) => s) 5 5
    (fun s : Z => (Raised (OtherException "ConnectionError"), s)) 0.
Proof.
  apply (retry_no_delay_after_exception (fun v : Z => negb (v =? 0))
           (fun (d : Z) (s : Z) => s + d) 5
           (fun s : Z => (Raised (OtherException "ConnectionError"), s))).
  intros s. exists (OtherException "ConnectionError"), s. split; reflexivity.
Defined.

(** ** What the processing step reports *)

Section ProcReports.
Import Proc.
Context {host_state : Type} `{!@System host_state}.

Lemma run_all_absent todo results bound (s : @state host_state) :
  (forall d, d ∈ todo -> path_exists d (os s) = false) ->
  run_all todo results bound s = (Returned (results, bound), s).
Proof.
  induction todo as [|d rest IH]; intros Hall; [reflexivity|].
  simpl. rewrite pbind_run. cbv beta iota.
  rewrite (Hall d) by apply list_elem_of_here. simpl.
  apply IH. intros d' Hd'. apply Hall. now apply list_elem_of_further.
Qed.

(** X4. With nothing to process (no unprocessed directory, or none that
    exists on disk) [process] stops on the unbound [result] of its log
    line: it raises [UnboundLocalError], removes nothing and publishes
    no result. *)
Theorem process_nothing_on_disk (host n : string) (s : @state host_state) :
  (forall d, d ∈ get_items (os s) "f{host}/{n}" "unprocessed" ->
             path_exists d (os s) = false) ->
  process host n s = (Raised UnboundLocalError, s).
Proof.
  intros Hall. unfold process. rewrite !pbind_run. cbv beta iota.
  rewrite run_all_absent; [reflexivity|].
  intros d Hd. apply Hall. now apply elem_of_elements.
Qed.

Lemma clean_up_only_rmtree to_clean results n m (s : @state host_state) :
  exists new,
    actions (snd (clean_up to_clean results n m s)) = (actions s ++ new)%list /\
    Forall is_rmtree new.
Proof.
  revert m s. induction to_clean as [|d rest IH]; intros m s.
  - exists []. split; [now rewrite app_nil_r|constructor].
  - simpl. rewrite pbind_run. unfold plift at 1.
    destruct (results !! d) as [res|]; simpl;
      [|exists []; split; [now rewrite app_nil_r|constructor]].
    destruct (res >? 1); [apply IH|].
    rewrite pbind_run.
    destruct (rm_datadir_actions d n s) as (n1 & E1 & Hn1).
    assert (F1 : Forall is_rmtree n1).
    { destruct Hn1 as [->|(p & -> & _)]; repeat constructor.
      now exists d, p. }
    destruct (rm_datadir d n s) as [[removed|e] s1]; simpl in E1;
      [|now exists n1].
    match goal with
    | |- context [clean_up rest results n ?m1 s1] =>
        destruct (IH m1 s1) as (n2 & E2 & F2)
    end.
    exists (n1 ++ n2)%list. split; [now rewrite E2, E1, app_assoc|].
    now apply Forall_app.
Qed.

(** The code the clean-up loop returns is the one it started from or
    one of 1 and 2. *)
Lemma clean_up_code to_clean results n m (s : @state host_state) :
  0 <= m ->
  forall m' s', clean_up to_clean results n m s = (Returned m', s') ->
                m' = m \/ (m < m' /\ (m' = 1 \/ m' = 2)).
Proof.
  revert m s. induction to_clean as [|d rest IH]; intros m s Hm.
  - intros m' s' E. inversion E. now left.
  - simpl. rewrite pbind_run. unfold plift at 1.
    destruct (results !! d) as [res|] eqn:Er; simpl; [|discriminate].
    destruct (res >? 1) eqn:Eg; [now apply IH|].
    rewrite pbind_run.
    destruct (rm_datadir d n s) as [[removed|e] s1]; [|discriminate].
    rewrite Z.gtb_ltb in Eg. apply Z.ltb_ge in Eg.
    match goal with
    | |- context [clean_up rest results n ?m1 s1] =>
        assert (Hm1 : 0 <= m1)
          by (destruct removed; simpl;
              match goal with
              | |- context [?a >? ?b] =>
                  destruct (a >? b) eqn:Em; [|exact Hm];
                  rewrite Z.gtb_ltb in Em; apply Z.ltb_lt in Em; lia
              end);
        pose proof (IH m1 s1 Hm1) as Hc; set (m2 := m1) in *
    end.
    intros m' s' E. specialize (Hc m' s' E).
    subst m2. destruct removed; simpl in Hc.
    + destruct (res >? m) eqn:Em.
      * rewrite Z.gtb_ltb in Em. apply Z.ltb_lt in Em. lia.
      * exact Hc.
    + destruct (2 >? m) eqn:Em.
      * rewrite Z.gtb_ltb in Em. apply Z.ltb_lt in Em. lia.
      * exact Hc.
Qed.

(** X5. A run of [process] that returns has published one message, as its
    last action: "RETURN:f{host}/{n}:" (the name is that literal,
    whatever the host and the instance) followed by a code that is 0, 1
    or 2; everything before it is a call of [shutil.rmtree].  A run
    that raises has published nothing. *)
Theorem process_result_message (host n : string) (s : @state host_state) :
  match process host n s with
  | (Returned _, s') =>
      exists removed code,
        actions s' = (actions s ++ removed ++
                      [Published RESULT_CHANNEL
                         ("RETURN:f{host}/{n}:" +:+ RecUtil.str_of_int code)])%list /\
        Forall is_rmtree removed /\ (code = 0 \/ code = 1 \/ code = 2)
  | (Raised _, s') =>
      exists removed,
        actions s' = (actions s ++ removed)%list /\ Forall is_rmtree removed
  end.
Proof.
  unfold process. rewrite !pbind_run. cbv beta iota.
  set (unprocessed := get_items (os s) "f{host}/{n}" "unprocessed").
  set (preserved := get_items (os s) "f{host}/{n}" "preserved").
  pose proof (run_all_actions (elements unprocessed) ∅ false s) as Hr.
  destruct (run_all (elements unprocessed) ∅ false s)
    as [[[results bound]|e] s1]; simpl in Hr.
  2:{ exists []. split; [now rewrite app_nil_r|constructor]. }
  destruct (negb bound).
  { exists []. split; [simpl; now rewrite app_nil_r|constructor]. }
  rewrite pbind_run.
  destruct (clean_up_only_rmtree (elements (unprocessed ∖ preserved)) results
              n 0 s1) as (new & Ea & Hnew).
  pose proof (clean_up_code (elements (unprocessed ∖ preserved)) results n 0
                s1 ltac:(lia)) as Hcode.
  destruct (clean_up _ results n 0 s1) as [[mx|e] s2]; simpl in Ea.
  - exists new, mx. split; [simpl; now rewrite Ea, Hr, app_assoc|].
    split; [exact Hnew|].
    destruct (Hcode mx s2 eq_refl) as [->|[_ [->| ->]]]; auto.
  - exists new. split; [simpl; now rewrite Ea, Hr|exact Hnew].
Qed.

Lemma run_seticore_no_outputdir bfrdir inputdir tsdir partition
    (s : @state host_state) :
  (forall p h, exists e, makedirs p h = (Raised e, h) /\
                         is_Exception e = true) ->
  run_seticore bfrdir inputdir tsdir partition s = (Returned 2, s).
Proof.
  intros Hmk. unfold run_seticore. rewrite pbind_run.
  unfold make_outputdir, succeeds, sys.
  destruct (Hmk ("/" +:+ partition +:+ "/data/" +:+ tsdir +:+
                 "/seticore_search") (os s)) as (e & -> & ->).
  now destruct s.
Qed.

Lemma run_all_no_outputdir todo results bound (s : @state host_state) :
  (forall p h, exists e, makedirs p h = (Raised e, h) /\
                         is_Exception e = true) ->
  exists results' bound',
    run_all todo results bound s = (Returned (results', bound'), s) /\
    (forall d, d ∈ todo /\ path_exists d (os s) = true \/
               results !! d = Some 2 -> results' !! d = Some 2) /\
    (bound = true \/ (exists d, d ∈ todo /\ path_exists d (os s) = true) ->
     bound' = true).
Proof.
  intros Hmk. revert results bound.
  induction todo as [|d rest IH]; intros results bound.
  - exists results, bound. split; [reflexivity|]. split.
    + intros d [[Hd _]|Hd]; [now apply elem_of_nil in Hd|exact Hd].
    + intros [Hb|(d & Hd & _)]; [exact Hb|now apply elem_of_nil in Hd].
  - simpl. rewrite pbind_run. cbv beta iota.
    destruct (path_exists d (os s)) eqn:Ed; simpl.
    + rewrite pbind_run, (run_seticore_no_outputdir _ _ _ _ _ Hmk).
      destruct (IH (<[d:=2]> results) true) as (r' & b' & E & Hr & Hb).
      exists r', b'. split; [exact E|]. split.
      * intros d' [[Hd' Hx]|Hd']; apply Hr.
        -- apply elem_of_cons in Hd' as [->|Hd']; [right|left; auto].
           apply lookup_insert_eq.
        -- right. destruct (decide (d = d')) as [->|Hne].
           ++ apply lookup_insert_eq.
           ++ now rewrite lookup_insert_ne.
      * intros _. apply Hb. now left.
    + destruct (IH results bound) as (r' & b' & E & Hr & Hb).
      exists r', b'. split; [exact E|]. split.
      * intros d' [[Hd' Hx]|Hd']; apply Hr; [left|now right].
        apply elem_of_cons in Hd' as [->|Hd']; [congruence|auto].
      * intros [Hbd|(d' & Hd' & Hx)]; apply Hb; [now left|right].
        apply elem_of_cons in Hd' as [->|Hd']; [congruence|eauto].
Qed.

Lemma clean_up_all_skipped to_clean results n m (s : @state host_state) :
  (forall d, d ∈ to_clean -> results !! d = Some 2) ->
  clean_up to_clean results n m s = (Returned m, s).
Proof.
  induction to_clean as [|d rest IH]; intros Hall; [reflexivity|].
  simpl. rewrite pbind_run. unfold plift at 1.
  rewrite (Hall d) by apply list_elem_of_here. simpl.
  apply IH. intros d' Hd'. apply Hall. now apply list_elem_of_further.
Qed.

(** X6. When the output directory cannot be made (as with the script's
    [os.path.makedirs], an attribute that does not exist), seticore is
    not run for any directory and nothing is removed, and [process]
    still publishes return code 0. *)
Theorem process_reports_success_without_outputdir (host n : string)
    (s : @state host_state) :
  (forall p h, exists e, makedirs p h = (Raised e, h) /\
                         is_Exception e = true) ->
  (exists d, d ∈ get_items (os s) "f{host}/{n}" "unprocessed" /\
             path_exists d (os s) = true) ->
  (forall d, d ∈ get_items (os s) "f{host}/{n}" "unprocessed" ->
             d ∉ get_items (os s) "f{host}/{n}" "preserved" ->
             path_exists d (os s) = true) ->
  process host n s =
  (Returned tt,
   {| os := os s;
      actions := (actions s ++
                  [Published RESULT_CHANNEL "RETURN:f{host}/{n}:0"])%list |}).
Proof.
  intros Hmk (d0 & Hd0 & Hx0) Hall.
  unfold process. rewrite !pbind_run. cbv beta iota.
  set (unprocessed := get_items (os s) "f{host}/{n}" "unprocessed") in *.
  set (preserved := get_items (os s) "f{host}/{n}" "preserved") in *.
  destruct (run_all_no_outputdir (elements unprocessed) ∅ false s Hmk)
    as (results & bound & -> & Hr & Hb).
  rewrite Hb by (right; exists d0; split; [now apply elem_of_elements|exact Hx0]).
  change (negb true) with false. cbv iota. rewrite pbind_run.
  rewrite clean_up_all_skipped; [reflexivity|].
  intros d Hd. apply elem_of_elements, elem_of_difference in Hd as [Hu Hp].
  apply Hr. left. split; [now apply elem_of_elements|now apply Hall].
Qed.

Lemma run_all_skips_absent d todo results bound (s : @state host_state)
    results' bound' s' :
  (forall h, path_exists d h = false) ->
  results !! d = None ->
  run_all todo results bound s = (Returned (results', bound'), s') ->
  results' !! d = None.
Proof.
  intros Hd. revert results bound s.
  induction todo as [|d1 rest IH]; intros results bound s Hn E.
  - inversion E; subst. exact Hn.
  - simpl in E. rewrite pbind_run in E. cbv beta iota in E.
    destruct (path_exists d1 (os s)) eqn:E1; simpl in E.
    + rewrite pbind_run in E.
      destruct (run_seticore _ _ _ _ s) as [[res|e] s1]; [|discriminate].
      refine (IH _ _ _ _ E).
      rewrite lookup_insert_ne; [exact Hn|]. intros ->.
      rewrite Hd in E1. discriminate.
    + now apply (IH _ _ _ Hn E).
Qed.

Lemma clean_up_missing d to_clean results n m (s : @state host_state) :
  d ∈ to_clean -> results !! d = None ->
  exists e, fst (clean_up to_clean results n m s) = Raised e.
Proof.
  intros Hin Hn. revert m s.
  induction to_clean as [|d1 rest IH]; intros m s;
    [now apply elem_of_nil in Hin|].
  simpl. rewrite pbind_run. unfold plift at 1.
  destruct (decide (d1 = d)) as [->|Hne].
  - rewrite Hn. simpl. now exists KeyError.
  - apply elem_of_cons in Hin as [Hin|Hin]; [congruence|].
    destruct (results !! d1) as [res|]; simpl; [|now exists KeyError].
    destruct (res >? 1); [now apply IH|].
    rewrite pbind_run.
    destruct (rm_datadir d1 n s) as [[removed|e] s1]; [now apply IH|].
    now exists e.
Qed.

(** X7. An unprocessed directory that is not to be preserved and is not on
    disk makes [process] end in an exception (the [KeyError] of
    [results[datadir]], unless something raised before), so that no
    result is published. *)
Theorem process_missing_dir_raises (host n d : string)
    (s : @state host_state) :
  d ∈ get_items (os s) "f{host}/{n}" "unprocessed" ->
  d ∉ get_items (os s) "f{host}/{n}" "preserved" ->
  (forall h, path_exists d h = false) ->
  exists e, fst (process host n s) = Raised e.
Proof.
  intros Hu Hp Hd. unfold process. rewrite !pbind_run. cbv beta iota.
  set (unprocessed := get_items (os s) "f{host}/{n}" "unprocessed") in *.
  set (preserved := get_items (os s) "f{host}/{n}" "preserved") in *.
  destruct (run_all (elements unprocessed) ∅ false s)
    as [[[results bound]|e] s1] eqn:Erun; [|now exists e].
  destruct (negb bound); [now exists UnboundLocalError|].
  rewrite pbind_run.
  destruct (clean_up_missing d (elements (unprocessed ∖ preserved)) results n
              0 s1) as [e He].
  - apply elem_of_elements, elem_of_difference. now split.
  - apply (run_all_skips_absent d _ _ _ _ _ _ _ Hd (lookup_empty d) Erun).
  - destruct (clean_up _ results n 0 s1) as [[mx|e'] s2]; simpl in He;
      [discriminate|now exists e'].
Qed.
End ProcReports.

Lemma process_nothing_on_disk_witness :
  @Proc.process unit (Demo.as_written []) "blpn0" "0" Demo.idle =
  (Raised UnboundLocalError, Demo.idle).
Proof.
  apply (@process_nothing_on_disk unit (Demo.as_written []) "blpn0" "0"
           Demo.idle).
  intros d _. reflexivity.
Defined.

Lemma process_reports_success_without_outputdir_witness :
  @Proc.process unit
    (Demo.as_written [Demo.rec_a; Demo.rec_kept; Demo.rec_bad]) "blpn0" "0"
    Demo.idle =
  (Returned tt,
   {| Proc.os := tt;
      Proc.actions := [Proc.Published "proc_result" "RETURN:f{host}/{n}:0"] |}).
Proof.
  apply (@process_reports_success_without_outputdir unit
           (Demo.as_written [Demo.rec_a; Demo.rec_kept; Demo.rec_bad])
           "blpn0" "0" Demo.idle).
  - intros p h. exists AttributeError. split; reflexivity.
  - exists Demo.rec_a. split; [|reflexivity]. vm_compute.
    apply (bool_decide_unpack _). vm_compute. exact I.
  - intros d Hd _. cbn in Hd. set_unfold in Hd.
    destruct Hd as [->|[->|[->|[]]]]; reflexivity.
Defined.

Lemma process_missing_dir_raises_witness :
  exists e,
    fst (@Proc.process unit (Demo.as_written [Demo.rec_kept; Demo.rec_bad])
           "blpn0" "0" Demo.idle) = Raised e.
Proof.
  apply (@process_missing_dir_raises unit
           (Demo.as_written [Demo.rec_kept; Demo.rec_bad]) "blpn0" "0"
           Demo.rec_a).
  - cbn. set_solver.
  - cbn. set_unfold. intros Hin.
    repeat (destruct Hin as [Hin|Hin]; [discriminate|]). exact Hin.
  - intros h. reflexivity.
Defined.

(** ** Messages that end the coordinator's loop *)

Section LoopEnds.
Import Coordinator.
Context {message machine heap : Type}.
Variable parse_msg : message -> option (list string).
Variable handle_event : machine -> @payload message -> heap -> heap.

Lemma getitem_missing (d : list (string * machine)) (key : string) :
  (forall m, (key, m) ∉ d) -> getitem d key = Raised KeyError.
Proof.
  induction d as [|[k m] d IH]; intros Hno; [reflexivity|]. simpl.
  destruct (String.eqb k key) eqn:E.
  - apply String.eqb_eq in E. subst k.
    exfalso. apply (Hno m), list_elem_of_here.
  - apply IH. intros m' Hin. apply (Hno m'). now apply list_elem_of_further.
Qed.

(** X8. The loop has no handler of its own: a message that is not a
    processing return and has a single component, or that names an
    array without a machine, raises ([IndexError], [KeyError]) before
    any machine is called, and none of the messages that follow is
    handled. *)
Theorem listen_ends_on_malformed_message (self : @coordinator machine)
    (pre post : list message) (msg : message) (c0 : string)
    (rest : list string) (st st1 : @state message machine heap) :
  listen parse_msg handle_event self pre st = (Returned tt, st1) ->
  parse_msg msg = Some (c0 :: rest) -> c0 <> "RETURN" ->
  rest = [] \/ (forall m, (c0, m) ∉ freesubscribed_machines self) ->
  exists e,
    listen parse_msg handle_event self (pre ++ msg :: post) st
      = (Raised e, st1) /\
    (e = IndexError \/ e = KeyError).
Proof.
  intros Hpre Hp Hne Hbad.
  rewrite (listen_app _ _ _ _ _ _ _ Hpre). simpl.
  unfold on_message. rewrite Hp.
  destruct (String.eqb c0 "RETURN") eqn:E;
    [apply String.eqb_eq in E; contradiction|].
  destruct rest as [|event rest].
  - exists IndexError. split; [reflexivity|now left].
  - destruct Hbad as [Hbad|Hbad]; [discriminate|].
    change (PyStr.index (c0 :: event :: rest) 1) with (Returned event).
    cbv iota. rewrite (getitem_missing _ _ Hbad).
    exists KeyError. split; [reflexivity|now right].
Qed.
End LoopEnds.

Lemma listen_ends_on_malformed_message_witness :
  let parse := fun m : string =>
    match PyStr.split ":" m with Returned l => Some l | Raised _ => None end in
  let self := {| Coordinator.freesubscribed_machines := [("array1", "fs1")];
                 Coordinator.recproc_machines := [("array1", "rp1")] |} in
  exists e,
    Coordinator.listen parse (fun _ _ (h : nat) => Datatypes.S h) self
      (["array1:RECORD"] ++ ["array1"; "array1:TRACK"]) (0%nat, []) =
    (Raised e,
     (2%nat, [("fs1", Coordinator.Event "RECORD");
              ("rp1", Coordinator.Event "RECORD")])) /\
    (e = IndexError \/ e = KeyError).
Proof.
  intros parse self.
  apply (listen_ends_on_malformed_message parse
           (fun _ _ (h : nat) => Datatypes.S h) self ["array1:RECORD"]
           ["array1:TRACK"] "array1" "array1" []).
  - reflexivity.
  - reflexivity.
  - discriminate.
  - now left.
Defined.

(** ** Sensor reads *)

Section SensorFacts.
Import RecUtil.
Context `{PyFloat} `{!Collaborators}.

Lemma float_arg_raises (x : option string) e :
  float_arg x = Raised e -> is_Exception e = true.
Proof.
  unfold float_arg, Util.to_float. destruct x as [s|]; simpl.
  - destruct (float_of_str s); simpl; intros E; inversion E; reflexivity.
  - intros E. inversion E. reflexivity.
Qed.

Lemma last_char_raises (s : string) e :
  last_char s = Raised e -> e = IndexError /\ s = EmptyString.
Proof.
  unfold last_char. destruct (PyStr.rev s) eqn:Er; intros E; inversion E.
  split; [reflexivity|].
  rewrite <- (rev_rev s), Er. reflexivity.
Qed.

(** X9. [centre_freq] and [bandwidth] catch whatever goes wrong: they
    always return, [None] standing for failure, and change nothing.
    With an empty array name both return [None], whereas [obs_band],
    which has no handler, raises [IndexError]. *)
Theorem sensor_reads_never_raise (array : string) (w : world) :
  (exists o, centre_freq array w = (Returned o, w)) /\
  (exists o, bandwidth array w = (Returned o, w)) /\
  centre_freq "" w = (Returned None, w) /\
  bandwidth "" w = (Returned None, w) /\
  obs_band "" w = (Raised IndexError, w).
Proof.
  split; [|split; [|repeat split]].
  - unfold centre_freq, try_except, mbind, M_bind, bind, r_get, lift, mret,
      M_ret, ret.
    destruct (last_char array) as [n|e] eqn:El.
    + destruct (float_arg _) as [x|e] eqn:Ef; [now eexists|].
      rewrite (float_arg_raises _ _ Ef). now eexists.
    + destruct (last_char_raises _ _ El) as [-> _]. now eexists.
  - unfold bandwidth, try_except, mbind, M_bind, bind, r_get, lift, mret,
      M_ret, ret.
    destruct (last_char array) as [n|e] eqn:El.
    + destruct (float_arg _) as [x|e] eqn:Ef; [now eexists|].
      rewrite (float_arg_raises _ _ Ef). now eexists.
    + destruct (last_char_raises _ _ El) as [-> _]. now eexists.
Qed.
End SensorFacts.

(** ** The formatted target name *)

Section TargetName.
Import RecUtil.
Context `{PyFloat}.

Lemma translate_chars (s : string) (a : ascii) :
  PyStr.mem a (translate s) = true -> PyStr.mem a punctuation = true ->
  a = "_"%char.
Proof.
  unfold translate. generalize punctuation as P. intros P.
  induction s as [|c s IH]; simpl; [discriminate|].
  intros Hin Hp. apply orb_true_iff in Hin as [Hin|Hin]; [|now apply IH].
  apply Ascii.eqb_eq in Hin. subst a.
  destruct (PyStr.mem c P) eqn:Ec; [reflexivity|].
  congruence.
Qed.

Lemma take_chars_chars (k : nat) (s : string) (a : ascii) :
  PyStr.mem a (PyStr.take_chars k s) = true -> PyStr.mem a s = true.
Proof.
  revert k. induction s as [|c s IH]; intros k; simpl; [discriminate|].
  destruct (PyStr.is_continuation c).
  - simpl. intros Hin. apply orb_true_iff in Hin as [Hin|Hin];
      apply orb_true_iff; [now left|right; now apply (IH k)].
  - destruct k as [|k]; simpl; [discriminate|].
    intros Hin. apply orb_true_iff in Hin as [Hin|Hin];
      apply orb_true_iff; [now left|right; now apply (IH k)].
Qed.

Lemma take_chars_length (k : nat) (s : string) :
  (PyStr.char_length (PyStr.take_chars k s) <= k)%nat.
Proof.
  revert k. induction s as [|c s IH]; intros k; simpl; [lia|].
  destruct (PyStr.is_continuation c) eqn:Ec.
  - simpl. rewrite Ec. apply IH.
  - destruct k as [|k]; simpl; [lia|]. rewrite Ec. specialize (IH k). lia.
Qed.

Lemma slice_to_chars (stop : Z) (s : string) (a : ascii) :
  PyStr.mem a (PyStr.slice_to stop s) = true -> PyStr.mem a s = true.
Proof. unfold PyStr.slice_to. apply take_chars_chars. Qed.

Lemma slice_to_length (stop : Z) (s : string) :
  0 <= stop -> Z.of_nat (PyStr.char_length (PyStr.slice_to stop s)) <= stop.
Proof.
  intros Hs. unfold PyStr.slice_to.
  replace (stop <? 0) with false by (symmetry; now apply Z.ltb_ge).
  pose proof (take_chars_length
                (Z.to_nat (Z.min stop (Z.of_nat (PyStr.char_length s)))) s).
  lia.
Qed.

(** X10. Whatever is stored as the target, the name [get_primary_target]
    returns holds no punctuation character other than the underscore
    (every other one has been replaced by it; + and - are not
    punctuation here), and unless it is "NOT_PROVIDED" it has at most
    [length] characters (characters of the text, as Python counts
    them, not bytes). *)
Theorem target_name_fits_header (array : string) (length : Z)
    (delimiter : string) (w w' : world) (td : target_data) :
  get_primary_target array length delimiter w = (Returned (Some td), w') ->
  (forall a, PyStr.mem a (target td) = true ->
             PyStr.mem a punctuation = true -> a = "_"%char) /\
  (0 <= length ->
   target td = "NOT_PROVIDED" \/
   Z.of_nat (PyStr.char_length (target td)) <= length).
Proof.
  unfold get_primary_target, mbind, M_bind, bind, r_get, lift, mret, M_ret,
    ret.
  intros E. repeat case_match; simplify_eq; simpl.
  - split; [|now left].
    intros chr Hchr Hpun.
    repeat (apply orb_true_iff in Hchr as [Hchr|Hchr];
            [apply Ascii.eqb_eq in Hchr; subst chr;
             first [reflexivity|vm_compute in Hpun; discriminate]|]).
    discriminate.
  - split.
    + intros chr Hchr Hpun. apply slice_to_chars in Hchr.
      now apply (translate_chars _ _ Hchr).
    + intros Hlen. right. now apply slice_to_length.
Qed.
End TargetName.

Lemma target_name_fits_header_witness :
  exists td : @RecUtil.target_data,
    @RecUtil.get_primary_target FloatLaws.exact "array1" 4 "|" Demo.cene_world
      = (Returned (Some td), Demo.cene_world) /\
    RecUtil.target td = Demo.cene /\
    Z.of_nat (PyStr.char_length (RecUtil.target td)) <= 4.
Proof.
  exists {| RecUtil.target := Demo.cene;
            RecUtil.ra := "9:18:05.28";
            RecUtil.dec := "-12:05:48.9" |}.
  split; [vm_compute; reflexivity|]. split; [reflexivity|].
  destruct (@target_name_fits_header FloatLaws.exact "array1" 4 "|"
              Demo.cene_world Demo.cene_world
              {| RecUtil.target := Demo.cene;
                 RecUtil.ra := "9:18:05.28";
                 RecUtil.dec := "-12:05:48.9" |}) as [_ Hlen].
  - vm_compute. reflexivity.
  - destruct Hlen as [Hlen|Hlen]; [lia|discriminate|exact Hlen].
Defined.

(** ** Splitting at a character *)

Section SplitFacts.
Import PyStr.
Variable c : ascii.

Lemma prefix_single (x : ascii) (s : string) :
  String.prefix (String c EmptyString) (String x s) =
  if ascii_dec c x then true else false.
Proof. simpl. destruct (ascii_dec c x); [now destruct s|reflexivity]. Qed.

Lemma mem_rev_onto (s acc : string) :
  mem c (rev_onto s acc) = mem c s || mem c acc.
Proof.
  revert acc. induction s as [|x s IH]; intros acc; simpl; [reflexivity|].
  rewrite IH. simpl. destruct (Ascii.eqb c x), (mem c s); reflexivity.
Qed.

(** Reading a field that holds no separator, up to the separator. *)
Lemma split_go_field (a cur rest : string) :
  mem c a = false ->
  split_go (String c EmptyString) 0 cur (a +:+ String c rest) =
  rev (rev_onto a cur) :: split_go (String c EmptyString) 0 EmptyString rest.
Proof.
  revert cur. induction a as [|x a IH]; intros cur Hno.
  - change (EmptyString +:+ String c rest) with (String c rest).
    cbn [split_go]. rewrite prefix_single.
    destruct (ascii_dec c c); [reflexivity|contradiction].
  - rewrite append_cons. cbn [split_go]. rewrite prefix_single.
    simpl in Hno. apply orb_false_iff in Hno as [Hx Ha].
    destruct (ascii_dec c x) as [<-|_]; [now rewrite Ascii.eqb_refl in Hx|].
    now rewrite IH.
Qed.

(** No field of a split holds the separator. *)
Lemma split_go_fields (cur s : string) :
  mem c cur = false ->
  Forall (fun f => mem c f = false)
         (split_go (String c EmptyString) 0 cur s).
Proof.
  revert cur. induction s as [|x s IH]; intros cur Hcur.
  - simpl. constructor; [|constructor].
    unfold rev. rewrite mem_rev_onto, Hcur. reflexivity.
  - cbn [split_go]. rewrite prefix_single.
    destruct (ascii_dec c x) as [<-|Hne].
    + constructor; [|now apply IH].
      unfold rev. rewrite mem_rev_onto, Hcur. reflexivity.
    + apply IH. simpl. rewrite Hcur, orb_false_r.
      now apply Ascii.eqb_neq.
Qed.
End SplitFacts.

(** ** Queued directories and the clean-up *)

Section QueuedDirs.
Import RecUtil.
Context `{PyFloat}.
Context {host_state : Type} `{!@Proc.System host_state}.

(** The path queued for an instance number without a slash has "buf"
    followed by that number as its second component. *)
Lemma queued_datadir_components (n rest : string) :
  PyStr.mem "/" n = false ->
  exists tail,
    PyStr.split "/" ("/buf" +:+ n +:+ "/" +:+ rest)
      = Returned (EmptyString :: ("buf" +:+ n) :: tail).
Proof.
  intros Hn. unfold PyStr.split.
  change ("/buf" +:+ n +:+ "/" +:+ rest)
    with (EmptyString +:+ String "/" (("buf" +:+ n) +:+ String "/" rest)).
  rewrite split_go_field by reflexivity.
  rewrite split_go_field.
  - eexists. f_equal. f_equal. f_equal.
    change (PyStr.rev_onto ("buf" +:+ n) EmptyString)
      with (PyStr.rev ("buf" +:+ n)).
    apply rev_rev.
  - rewrite !append_cons. simpl. exact Hn.
Qed.

(** X11. Every directory [add_unprocessed] queues is "/buf", the instance
    number, "/", and the name of the recording; [rm_datadir], which
    takes only paths under "buf0ro", returns [False] for it and removes
    nothing, unless the instance number is the text "0ro". *)
Theorem queued_datadirs_are_never_removed (recording : list string)
    (pktstart_str sb_id : string) (w : world) :
  exists new,
    trace (snd (add_unprocessed recording pktstart_str sb_id w))
      = (trace w ++ new)%list /\
    forall ev, ev ∈ new ->
      exists instance host n,
        instance ∈ recording /\
        PyStr.split "/" instance = Returned [host; n] /\
        ev = Lpush (instance +:+ ":unprocessed")
                   ("/buf" +:+ n +:+ "/" +:+ pktstart_str +:+ "-" +:+ sb_id) /\
        (n <> "0ro" ->
         forall (i : string) (s : @Proc.state host_state),
           Proc.rm_datadir
             ("/buf" +:+ n +:+ "/" +:+ pktstart_str +:+ "-" +:+ sb_id) i s
           = (Returned false, s)).
Proof.
  revert w. induction recording as [|instance rest IH]; intros w.
  - exists []. split; [simpl; now rewrite app_nil_r|].
    intros ev Hin. now apply elem_of_nil in Hin.
  - cbn [add_unprocessed]. rewrite bind_run. unfold lift at 1.
    destruct (PyStr.split "/" instance) as [parts|e] eqn:Es.
    2:{ exists []. split; [simpl; now rewrite app_nil_r|].
        intros ev Hin. now apply elem_of_nil in Hin. }
    destruct parts as [|host [|n [|x parts]]];
      try (exists []; split; [simpl; now rewrite app_nil_r|];
           intros ev Hin; now apply elem_of_nil in Hin).
    rewrite bind_run. unfold emit at 1.
    match goal with
    | |- context [add_unprocessed rest pktstart_str sb_id ?w1] =>
        destruct (IH w1) as (new & Et & Hnew)
    end.
    eexists (_ :: new). split.
    + rewrite Et. simpl. rewrite <- app_assoc. reflexivity.
    + intros ev Hin. apply elem_of_cons in Hin as [->|Hin].
      * exists instance, host, n. split; [apply list_elem_of_here|].
        split; [exact Es|]. split; [reflexivity|].
        intros Hne i s.
        assert (Hn : PyStr.mem "/" n = false).
        { unfold PyStr.split in Es. inversion Es as [Eg].
          pose proof (split_go_fields "/" EmptyString instance eq_refl) as Hf.
          rewrite Eg in Hf.
          apply Forall_cons in Hf as [_ Hf].
          now apply Forall_cons in Hf as [Hf _]. }
        destruct (queued_datadir_components n
                    (pktstart_str +:+ "-" +:+ sb_id) Hn) as [tail Ec].
        apply (rm_datadir_refuses _ _ _ _ ("buf" +:+ n) Ec); [reflexivity|].
        intros Eb. apply Hne. now inversion Eb.
      * destruct (Hnew ev Hin) as (i0 & h0 & n0 & Hi & Hrest).
        exists i0, h0, n0. split; [now apply list_elem_of_further|exact Hrest].
Qed.
End QueuedDirs.

(** ** Paths [rm_datadir] cannot take apart *)

Section ShortPaths.
Context {host_state : Type} `{!@Proc.System host_state}.

Lemma split_go_last (c : ascii) (a cur : string) :
  PyStr.mem c a = false ->
  PyStr.split_go (String c EmptyString) 0 cur a =
  [PyStr.rev (PyStr.rev_onto a cur)].
Proof.
  revert cur. induction a as [|x a IH]; intros cur Hno; [reflexivity|].
  cbn [PyStr.split_go]. rewrite prefix_single.
  simpl in Hno. apply orb_false_iff in Hno as [Hx Ha].
  destruct (ascii_dec c x) as [<-|_]; [now rewrite Ascii.eqb_refl in Hx|].
  now rewrite IH.
Qed.

(** X13. [rm_datadir] reads [components[1]] and [components[2]] with no
    check of their presence: for every datadir without "/", and for
    such a text followed by "/buf0ro" and nothing more, it raises
    [IndexError], where the other invalid datadirs get [False];
    nothing is removed. *)
Theorem rm_datadir_index_errors (datadir n : string)
    (s : @Proc.state host_state) :
  PyStr.mem "/" datadir = false ->
  Proc.rm_datadir datadir n s = (Raised IndexError, s) /\
  Proc.rm_datadir (datadir +:+ "/buf0ro") n s = (Raised IndexError, s).
Proof.
  intros Hno. split.
  - unfold Proc.rm_datadir. rewrite pbind_run. unfold Proc.plift at 1.
    unfold PyStr.split. rewrite (split_go_last _ _ _ Hno).
    reflexivity.
  - unfold Proc.rm_datadir. rewrite pbind_run. unfold Proc.plift at 1.
    unfold PyStr.split.
    change (datadir +:+ "/buf0ro") with (datadir +:+ String "/" "buf0ro").
    rewrite (split_go_field _ _ _ _ Hno).
    rewrite (split_go_last "/" "buf0ro" EmptyString eq_refl).
    reflexivity.
Qed.
End ShortPaths.

Lemma rm_datadir_index_errors_witness :
  @Proc.rm_datadir Demo.host Demo.host_system "GUPPI" "0" Demo.node =
  (Raised IndexError, Demo.node) /\
  @Proc.rm_datadir Demo.host Demo.host_system "GUPPI/buf0ro" "0" Demo.node =
  (Raised IndexError, Demo.node).
Proof.
  apply (@rm_datadir_index_errors Demo.host Demo.host_system "GUPPI" "0"
           Demo.node).
  reflexivity.
Defined.
